(** * TaskMint: task filter, dashboard stats, timer session and analytics

    A shallow embedding of the TypeScript pages of the application
    (Tasks, Dashboard, Timer, Analytics) and the properties of its
    specification that concern them.

    Conventions of the embedding.
    - A JavaScript string is a [string]: a sequence of code units, here
      restricted to the range 0..255 (Basic Latin and Latin-1), where
      [toLowerCase] is a map on single code units.  Module [UTF16] holds
      the search test for texts beyond that range.
    - A JavaScript number that holds an integer (a counter, a length, a
      duration in seconds, a time in milliseconds) is a [Z]; the counter
      of the timer and the time values stay far below 2^53, where the
      number format holds every integer.  Divisions, the multiplication
      by 100 and the sum of the durations produce numbers of the format:
      their values are rationals [Q], rounded by [fl] (class [JSNumber]).
    - The calendar is the environment's (class [JSDate]): parsing and
      printing a date, the start of the local day, and the step of
      [setDate] by a number of calendar days.
    - [undefined] and [null] are [None].
    - A JavaScript [Map] is an association list in insertion order.
    - React state is a record; a handler reads the values captured by the
      render that created it and returns the state after its updates. *)

From Stdlib Require Import ZArith QArith Qround Qpower String Ascii List Bool Lia Lqa.
From Stdlib Require Import DecimalString.
Import ListNotations.

Local Open Scope string_scope.
Local Open Scope list_scope.
Local Open Scope Z_scope.

(* ================================================================== *)
(** ** JavaScript strings and arrays *)
(* ================================================================== *)

Module JS.

(** Truthiness of a string: every string but the empty one. *)
Definition truthy (s : string) : bool :=
  match s with EmptyString => false | String _ _ => true end.

(** Truthiness of an optional string ([undefined], [null] and [""] are falsy). *)
Definition truthy_opt (o : option string) : bool :=
  match o with Some s => truthy s | None => false end.

(** White space removed by [String.prototype.trim], in the range 0..255. *)
Definition is_whitespace (c : ascii) : bool :=
  let n := nat_of_ascii c in
  (Nat.leb 9 n && Nat.leb n 13) || Nat.eqb n 32 || Nat.eqb n 160.

Fixpoint trimStart (s : string) : string :=
  match s with
  | EmptyString => EmptyString
  | String c s' => if is_whitespace c then trimStart s' else s
  end.

Definition rev_string (s : string) : string :=
  string_of_list_ascii (rev (list_ascii_of_string s)).

Definition trimEnd (s : string) : string :=
  rev_string (trimStart (rev_string s)).

Definition trim (s : string) : string := trimEnd (trimStart s).

(** [toLowerCase] on one code unit of the range 0..255: A-Z and the
    capital letters U+00C0..U+00DE except the multiplication sign.  In
    this range the lower case of a text is the lower case of its code
    units, one by one; beyond it the rules depend on the context (see
    [UTF16.toLowerCase]). *)
Definition lower_char (c : ascii) : ascii :=
  let n := nat_of_ascii c in
  if (Nat.leb 65 n && Nat.leb n 90)
     || (Nat.leb 192 n && Nat.leb n 222 && negb (Nat.eqb n 215))
  then ascii_of_nat (n + 32) else c.

Fixpoint toLowerCase (s : string) : string :=
  match s with
  | EmptyString => EmptyString
  | String c s' => String (lower_char c) (toLowerCase s')
  end.

(** [s.startsWith(p)]. *)
Fixpoint startsWith (s p : string) : bool :=
  match p, s with
  | EmptyString, _ => true
  | String _ _, EmptyString => false
  | String a p', String b s' => Ascii.eqb a b && startsWith s' p'
  end.

(** [s.includes(sub)]: [sub] occurs in [s] at some position. *)
Fixpoint includes (s sub : string) : bool :=
  startsWith s sub ||
  match s with
  | EmptyString => false
  | String _ s' => includes s' sub
  end.

(** [s.split(sep)[0]]: the part of [s] before the first [sep]. *)
Fixpoint split_head (sep : ascii) (s : string) : string :=
  match s with
  | EmptyString => EmptyString
  | String c s' => if Ascii.eqb c sep then EmptyString else String c (split_head sep s')
  end.

(** [a.slice(-n)]: the last [n] elements of an array. *)
Definition slice_last {A : Type} (n : nat) (l : list A) : list A :=
  skipn (length l - n) l.

(** [a.find(p)]. *)
Definition find {A : Type} (p : A -> bool) (l : list A) : option A := List.find p l.

End JS.

(* ================================================================== *)
(** ** The rows of the repository *)
(* ================================================================== *)

Module Rows.

Record Category : Type := {
  cat_id : string;
  name : string;
  color : string
}.

(** A row of [tasks], with its joined category. *)
Record Task : Type := {
  id : string;
  user_id : string;
  title : string;
  description : option string;
  completed : bool;
  due_date : option string;
  priority : string;
  estimated_time : option Z;
  created_at : string;
  category : option Category
}.

(** A row of [time_entries]. *)
Record TimeEntry : Type := {
  entry_id : string;
  entry_user_id : string;
  task_id : string;
  start_time : string;
  end_time : option string;
  duration : option Z
}.

End Rows.
Import Rows.

(** [new Date(s).getTime()], [d.toISOString()] and the local calendar are
    the environment's: a date is its time value in milliseconds, [None]
    standing for an invalid date (NaN). *)
Class JSDate : Type := {
  Date_parse : string -> option Z;
  toISOString : Z -> string;
  (** [new Date(s).toLocaleDateString('en-US', { weekday: 'short' })] *)
  toLocaleWeekday : string -> string;
  (** [new Date(d.getFullYear(), d.getMonth(), d.getDate())] *)
  startOfLocalDay : Z -> Z;
  (** [d.setDate(d.getDate() + n)]: the date [n] days from [d] in the
      local calendar, at the same local time.  It is [n] times 24 hours
      away when the offset of the zone is the same at both dates, an hour
      more or less across a change of the clocks. *)
  plusDays : Z -> Z -> Z
}.

(** [new Date(s) < t]: false on an invalid date. *)
Definition date_lt `{JSDate} (s : string) (t : Z) : bool :=
  match Date_parse s with Some ms => ms <? t | None => false end.

(** [new Date(s) >= t]: false on an invalid date. *)
Definition date_ge `{JSDate} (s : string) (t : Z) : bool :=
  match Date_parse s with Some ms => t <=? ms | None => false end.

(* ================================================================== *)
(** ** Tasks page: [filterTasks] and [isOverdue] *)
(* ================================================================== *)

Module Tasks.

Inductive StatusFilter : Type := status_all | status_completed | status_pending.
Inductive PriorityFilter : Type := priority_all | priority_high | priority_medium | priority_low.

(** The string a priority filter stands for. *)
Definition priority_value (p : PriorityFilter) : string :=
  match p with
  | priority_all => "all"
  | priority_high => "high"
  | priority_medium => "medium"
  | priority_low => "low"
  end.

Record State : Type := {
  tasks : list Task;
  filteredTasks : list Task;
  searchQuery : string;
  statusFilter : StatusFilter;
  priorityFilter : PriorityFilter
}.

(** The callback of the search filter:
    [title.toLowerCase().includes(q) || description?.toLowerCase().includes(q)]. *)
Definition search_pred (searchQuery : string) (task : Task) : bool :=
  JS.includes (JS.toLowerCase (title task)) (JS.toLowerCase searchQuery)
  || match description task with
     | Some d => JS.includes (JS.toLowerCase d) (JS.toLowerCase searchQuery)
     | None => false
     end.

Definition status_pred (statusFilter : StatusFilter) (task : Task) : bool :=
  match statusFilter with
  | status_completed => completed task
  | _ => negb (completed task)
  end.

Definition priority_pred (priorityFilter : PriorityFilter) (task : Task) : bool :=
  String.eqb (priority task) (priority_value priorityFilter).

(** The value [filterTasks] passes to [setFilteredTasks]. *)
Definition filtered (tasks : list Task) (searchQuery : string)
  (statusFilter : StatusFilter) (priorityFilter : PriorityFilter) : list Task :=
  let filtered := tasks in
  let filtered :=
    if JS.truthy (JS.trim searchQuery)
    then filter (search_pred searchQuery) filtered else filtered in
  let filtered :=
    match statusFilter with
    | status_all => filtered
    | _ => filter (status_pred statusFilter) filtered
    end in
  let filtered :=
    match priorityFilter with
    | priority_all => filtered
    | _ => filter (priority_pred priorityFilter) filtered
    end in
  filtered.

Definition filterTasks (s : State) : State :=
  {| tasks := tasks s;
     filteredTasks :=
       filtered (tasks s) (searchQuery s) (statusFilter s) (priorityFilter s);
     searchQuery := searchQuery s;
     statusFilter := statusFilter s;
     priorityFilter := priorityFilter s |}.

(** [isOverdue(dueDate)], [now] being the value of [new Date()]. *)
Definition isOverdue `{JSDate} (s : State) (now : Z) (dueDate : string) : bool :=
  date_lt dueDate now
  && negb match JS.find (fun t => match due_date t with
                                  | Some d => String.eqb d dueDate
                                  | None => false
                                  end) (tasks s) with
          | Some t => completed t
          | None => false
          end.

(** What the list shows for the due date of a task: nothing when the task
    has none, otherwise whether the date is drawn as overdue. *)
Definition overdue_indicator `{JSDate} (s : State) (now : Z) (task : Task) : option bool :=
  match due_date task with
  | Some d => if JS.truthy d then Some (isOverdue s now d) else None
  | None => None
  end.

(** *** The words of the specification *)

(** [l1] is [l2] with some elements removed, the others in their order. *)
Inductive subsequence {A : Type} : list A -> list A -> Prop :=
| subsequence_nil : subsequence [] []
| subsequence_skip x l1 l2 : subsequence l1 l2 -> subsequence l1 (x :: l2)
| subsequence_keep x l1 l2 : subsequence l1 l2 -> subsequence (x :: l1) (x :: l2).

(** The letters that have two cases in the range 0..255, each capital
    with its small letter: the Basic Latin alphabet, and the Latin-1
    letters U+00C0..U+00DE (the multiplication sign U+00D7 between them
    is no letter) with U+00E0..U+00FE. *)
Definition letter_pairs : list (ascii * ascii) :=
  combine (list_ascii_of_string "ABCDEFGHIJKLMNOPQRSTUVWXYZ")
          (list_ascii_of_string "abcdefghijklmnopqrstuvwxyz")
  ++ map (fun n => (ascii_of_nat n, ascii_of_nat (n + 32)))
       (seq 192 23 ++ seq 216 7).

Definition is_pair (capital small : ascii) : bool :=
  existsb (fun p => Ascii.eqb (fst p) capital && Ascii.eqb (snd p) small) letter_pairs.

(** Two characters that are the same, letter case ignored: the same
    character, or the capital and the small form of one letter. *)
Definition same_letter (a b : ascii) : bool :=
  Ascii.eqb a b || is_pair a b || is_pair b a.

(** Two texts that are the same, letter case ignored. *)
Fixpoint equal_ignoring_case (s1 s2 : string) : bool :=
  match s1, s2 with
  | EmptyString, EmptyString => true
  | String a s1', String b s2' => same_letter a b && equal_ignoring_case s1' s2'
  | _, _ => false
  end.

(** [hay] contains [needle] as a substring, letter case ignored: some
    part of [hay] is [needle] up to the case of its letters. *)
Definition contains_ci (hay needle : string) : Prop :=
  exists pre mid post,
    hay = (pre ++ mid ++ post)%string /\ equal_ignoring_case mid needle = true.

Definition matches_search (searchQuery : string) (task : Task) : Prop :=
  contains_ci (title task) searchQuery
  \/ exists d, description task = Some d /\ contains_ci d searchQuery.

Definition passes_status (f : StatusFilter) (task : Task) : Prop :=
  match f with
  | status_all => True
  | status_completed => completed task = true
  | status_pending => completed task = false
  end.

Definition passes_priority (f : PriorityFilter) (task : Task) : Prop :=
  match f with
  | priority_all => True
  | _ => priority task = priority_value f
  end.

End Tasks.

(* ================================================================== *)
(** ** The search test on texts of 16-bit code units *)
(* ================================================================== *)

(** Beyond the range 0..255 [String.prototype.toLowerCase] is no longer a
    map on single code units: it follows the context-sensitive rules of
    Unicode, of which the capital sigma is the first.  This module holds
    the search test of [filterTasks] for texts written with Basic Latin,
    Latin-1 and the Greek letters U+0391..U+03C9; code units outside
    these blocks are left as they are and are not covered. *)
Module UTF16.

Local Open Scope N_scope.

(** A text as the sequence of its code units. *)
Definition text : Type := list N.

Definition between (lo hi c : N) : bool := (lo <=? c) && (c <=? hi).

(** The letters that have a case. *)
Definition cased (c : N) : bool :=
  between 65 90 c || between 97 122 c
  || (c =? 170) || (c =? 181) || (c =? 186)
  || between 192 214 c || between 216 246 c || between 248 255 c
  || between 913 929 c || between 931 969 c.

(** The characters a word may hold between its letters (apostrophe, full
    stop, colon, the spacing accents, the soft hyphen, the middle dot). *)
Definition case_ignorable (c : N) : bool :=
  existsb (N.eqb c) [39; 46; 58; 94; 96; 168; 173; 175; 180; 183; 184].

(** The nearest character that is not case-ignorable is a cased letter. *)
Fixpoint cased_next (s : text) : bool :=
  match s with
  | [] => false
  | c :: s' => if case_ignorable c then cased_next s' else cased c
  end.

(** The lower case of one code unit that does not depend on its context. *)
Definition lower_unit (c : N) : N :=
  if between 65 90 c
     || (between 192 222 c && negb (c =? 215))
     || between 913 929 c || between 932 939 c
  then c + 32 else c.

(** [toLowerCase], [before] holding the code units already passed, the
    nearest first.  A capital sigma (U+03A3) that ends a word, a cased
    letter before it and none after it, becomes the final sigma U+03C2,
    any other one the sigma U+03C3. *)
Fixpoint lower_from (before s : text) : text :=
  match s with
  | [] => []
  | c :: rest =>
      (if c =? 931
       then if cased_next before && negb (cased_next rest) then 962 else 963
       else lower_unit c)
      :: lower_from (c :: before) rest
  end.

Definition toLowerCase (s : text) : text := lower_from [] s.

Fixpoint startsWith (s p : text) : bool :=
  match p, s with
  | [], _ => true
  | _ :: _, [] => false
  | a :: p', b :: s' => (a =? b) && startsWith s' p'
  end.

Fixpoint includes (s sub : text) : bool :=
  startsWith s sub ||
  match s with
  | [] => false
  | _ :: s' => includes s' sub
  end.

(** The callback of the search filter, for a task of this title and
    description:
    [title.toLowerCase().includes(q) || description?.toLowerCase().includes(q)]. *)
Definition search_pred (searchQuery title : text) (description : option text) : bool :=
  includes (toLowerCase title) (toLowerCase searchQuery)
  || match description with
     | Some d => includes (toLowerCase d) (toLowerCase searchQuery)
     | None => false
     end.

End UTF16.

(* ================================================================== *)
(** ** Replies of the repository *)
(* ================================================================== *)

(** The [{ data, error }] pair a select answers with: an error, or the
    rows ([data] may be [null]). *)
Inductive QueryReply (A : Type) : Type :=
| query_error : QueryReply A
| query_data (rows : option (list A)) : QueryReply A.
Arguments query_error {A}.
Arguments query_data {A} rows.

(** [rows?.length || 0]. *)
Definition length_or_0 {A : Type} (rows : option (list A)) : Z :=
  match rows with Some l => Z.of_nat (length l) | None => 0 end.

(** [rows?.filter(p)]. *)
Definition opt_filter {A : Type} (p : A -> bool) (rows : option (list A)) : option (list A) :=
  match rows with Some l => Some (filter p l) | None => None end.

(** [rows || []]. *)
Definition or_empty {A : Type} (rows : option (list A)) : list A :=
  match rows with Some l => l | None => [] end.

(* ================================================================== *)
(** ** Dashboard page: the stats of [fetchTasks] *)
(* ================================================================== *)

Module Dashboard.

Record Stats : Type := {
  totalTasks : Z;
  completedTasks : Z;
  todayTasks : Z;
  overdueTasks : Z
}.

Record State : Type := {
  tasks : list Task;
  stats : Stats;
  loading : bool
}.

Definition MS_PER_DAY : Z := 24 * 60 * 60 * 1000.

Definition due_today `{JSDate} (today : Z) (task : Task) : bool :=
  match due_date task with
  | None => false
  | Some d =>
      if negb (JS.truthy d) then false
      else date_ge d today && date_lt d (today + MS_PER_DAY)
  end.

Definition overdue `{JSDate} (today : Z) (task : Task) : bool :=
  match due_date task with
  | None => false
  | Some d =>
      if negb (JS.truthy d) || completed task then false
      else date_lt d today
  end.

(** The stats computed from the rows, [now] being the value of [new Date()]. *)
Definition calculate_stats `{JSDate} (tasksData : option (list Task)) (now : Z) : Stats :=
  let today := startOfLocalDay now in
  {| totalTasks := length_or_0 tasksData;
     completedTasks := length_or_0 (opt_filter completed tasksData);
     todayTasks := length_or_0 (opt_filter (due_today today) tasksData);
     overdueTasks := length_or_0 (opt_filter (overdue today) tasksData) |}.

(** [fetchTasks]: on an error the state keeps its tasks and stats (a toast
    is shown); in both cases [loading] is cleared. *)
Definition fetchTasks `{JSDate} (reply : QueryReply Task) (now : Z) (s : State) : State :=
  match reply with
  | query_error => {| tasks := tasks s; stats := stats s; loading := false |}
  | query_data tasksData =>
      {| tasks := or_empty tasksData;
         stats := calculate_stats tasksData now;
         loading := false |}
  end.

End Dashboard.

(* ================================================================== *)
(** ** Timer page: the session and its handlers *)
(* ================================================================== *)

Module Timer.

Inductive Variant : Type := default_variant | destructive.

(** What a handler does to the world outside the component, in order. *)
Inductive Call : Type :=
| insert_time_entry (user : option string) (task_id start_time : string)
| update_time_entry (entry : string) (end_time : string) (duration : Z)
| fetchTimeEntries
| toast (title description : string) (variant : Variant).

Definition is_repository_call (c : Call) : bool :=
  match c with toast _ _ _ => false | _ => true end.

Record State : Type := {
  selectedTaskId : string;
  isRunning : bool;
  currentTime : Z;
  activeEntryId : option string
}.

(** The component as it mounts. *)
Definition initial : State :=
  {| selectedTaskId := ""; isRunning := false; currentTime := 0; activeEntryId := None |}.

(** The repository's answers: [Some id] is the [data.id] of an insert,
    [None] or [false] an [error]. *)
Record Repository : Type := {
  insert_reply : string -> string -> option string;
  update_reply : string -> string -> Z -> bool
}.

(** A handler's computation: it updates the state, logs its calls, and
    either returns or is throwing ([None]). *)
Definition M (A : Type) : Type := State -> list Call -> option A * State * list Call.

Definition ret {A : Type} (a : A) : M A := fun s log => (Some a, s, log).

Definition bind {A B : Type} (m : M A) (k : A -> M B) : M B :=
  fun s log =>
    match m s log with
    | (Some a, s', log') => k a s' log'
    | (None, s', log') => (None, s', log')
    end.

Definition throw {A : Type} : M A := fun s log => (None, s, log).

Definition try_catch (body handler : M unit) : M unit :=
  fun s log =>
    match body s log with
    | (Some a, s', log') => (Some a, s', log')
    | (None, s', log') => handler s' log'
    end.

Definition call (c : Call) : M unit := fun s log => (Some tt, s, log ++ [c]).

Definition setIsRunning (b : bool) : M unit :=
  fun s log =>
    (Some tt,
     {| selectedTaskId := selectedTaskId s; isRunning := b;
        currentTime := currentTime s; activeEntryId := activeEntryId s |}, log).

Definition setCurrentTime (t : Z) : M unit :=
  fun s log =>
    (Some tt,
     {| selectedTaskId := selectedTaskId s; isRunning := isRunning s;
        currentTime := t; activeEntryId := activeEntryId s |}, log).

Definition setActiveEntryId (e : option string) : M unit :=
  fun s log =>
    (Some tt,
     {| selectedTaskId := selectedTaskId s; isRunning := isRunning s;
        currentTime := currentTime s; activeEntryId := e |}, log).

Notation "x <- m ;; k" := (bind m (fun x => k))
  (at level 61, m at next level, right associativity).
Notation "m ;; k" := (bind m (fun _ => k))
  (at level 61, right associativity).

(** Decimal digits of a number, as [Number.prototype.toString] on an integer. *)
Definition toString (n : Z) : string :=
  DecimalString.NilZero.string_of_int (Z.to_int n).

(** [s.padStart(2, '0')]. *)
Definition padStart2 (s : string) : string :=
  match String.length s with
  | O => "00"
  | S O => ("0" ++ s)%string
  | _ => s
  end.

(** [formatTime]: [Math.floor] of a quotient is the floor division, [%]
    the remainder with the sign of the dividend.  This holds for whole
    numbers of seconds up to 2^53, the range of the counter: the quotient
    of the number format is then less than 1/3600 away from the exact
    one and has the same floor, and the three numbers print in decimal
    digits. *)
Definition formatTime (seconds : Z) : string :=
  let hours := seconds / 3600 in
  let minutes := Z.rem seconds 3600 / 60 in
  let secs := Z.rem seconds 60 in
  if 0 <? hours
  then (toString hours ++ ":" ++ padStart2 (toString minutes)
          ++ ":" ++ padStart2 (toString secs))%string
  else (toString minutes ++ ":" ++ padStart2 (toString secs))%string.

Section Handlers.

Context `{JSDate}.
Variable repo : Repository.
Variable user : option string.
(** The value of [new Date()] when the handler runs. *)
Variable now : Z.

(** [startTimer], run by the render that holds [r]. *)
Definition startTimer (r : State) : M unit :=
  if negb (JS.truthy (selectedTaskId r)) then
    call (toast "Select a task" "Please select a task to track time for." destructive)
  else
    try_catch
      (call (insert_time_entry user (selectedTaskId r) (toISOString now)) ;;
       match insert_reply repo (selectedTaskId r) (toISOString now) with
       | None => throw
       | Some data_id =>
           setActiveEntryId (Some data_id) ;;
           setIsRunning true ;;
           setCurrentTime 0 ;;
           call (toast "Timer started"
                   "Time tracking has begun for the selected task." default_variant)
       end)
      (call (toast "Error" "Failed to start timer." destructive)).

Definition pauseTimer (r : State) : M unit := setIsRunning false.

(** [stopTimer], run by the render that holds [r]. *)
Definition stopTimer (r : State) : M unit :=
  match activeEntryId r with
  | None => ret tt
  | Some entry =>
      if negb (JS.truthy entry) then ret tt
      else
        try_catch
          (call (update_time_entry entry (toISOString now) (currentTime r)) ;;
           if update_reply repo entry (toISOString now) (currentTime r) then
             setIsRunning false ;;
             setCurrentTime 0 ;;
             setActiveEntryId None ;;
             call fetchTimeEntries ;;
             call (toast "Timer stopped"
                     ("Time logged: " ++ formatTime (currentTime r))%string
                     default_variant)
           else throw)
          (call (toast "Error" "Failed to stop timer." destructive))
  end.

(** A handler run from the state [s]: the state after it and its calls. *)
Definition run (h : State -> M unit) (s : State) : State * list Call :=
  match h s s [] with (_, s', log) => (s', log) end.

End Handlers.

(** The callback of the one-second interval, installed while [isRunning]. *)
Definition tick (s : State) : State :=
  if isRunning s
  then {| selectedTaskId := selectedTaskId s; isRunning := true;
          currentTime := currentTime s + 1; activeEntryId := activeEntryId s |}
  else s.

(** *** The error taxonomy of the specification *)

Inductive ErrorKind : Type := ValidationError | PreconditionError | RepositoryError.

(** How a handler reports a failure: by a destructive toast.  The toast
    that asks for a task is the validation failure, the one that names a
    failed timer operation the repository's. *)
Definition reported (c : Call) : option ErrorKind :=
  match c with
  | toast title _ destructive =>
      if String.eqb title "Select a task" then Some ValidationError
      else Some RepositoryError
  | _ => None
  end.

(** The failures a run has reported. *)
Definition failures (log : list Call) : list ErrorKind :=
  flat_map (fun c => match reported c with Some e => [e] | None => [] end) log.

End Timer.

(* ================================================================== *)
(** ** JavaScript numbers and maps *)
(* ================================================================== *)

(** The rounding of a rational to the number format (binary64, to
    nearest): it is monotone and leaves the integers up to 2^53 as they
    are.  [x / y] in the program is [fl (x / y)] here. *)
Class JSNumber : Type := {
  fl : Q -> Q;
  fl_monotone : forall x y : Q, (x <= y)%Q -> (fl x <= fl y)%Q;
  fl_integer : forall z : Z, Z.abs z <= 2 ^ 53 -> (fl (inject_Z z) == inject_Z z)%Q
}.

(** [Math.round]: the nearest integer, a half going up. *)
Definition Math_round (x : Q) : Z := Qfloor (x + (1 # 2))%Q.

(** [Map] with string keys: the entries in insertion order; [set] on a
    key that is present replaces its value where it stands. *)
Module JSMap.

Definition t (V : Type) : Type := list (string * V).

Fixpoint get {V : Type} (k : string) (m : t V) : option V :=
  match m with
  | [] => None
  | (k', v) :: m' => if String.eqb k' k then Some v else get k m'
  end.

Definition has {V : Type} (k : string) (m : t V) : bool :=
  match get k m with Some _ => true | None => false end.

Fixpoint set {V : Type} (k : string) (v : V) (m : t V) : t V :=
  match m with
  | [] => [(k, v)]
  | (k', v') :: m' =>
      if String.eqb k' k then (k', v) :: m' else (k', v') :: set k v m'
  end.

Definition keys {V : Type} (m : t V) : list string := map fst m.
Definition values {V : Type} (m : t V) : list V := map snd m.
Definition entries {V : Type} (m : t V) : list (string * V) := m.

End JSMap.

(** The rounding of binary64, to nearest with ties to even, on the
    rationals: 53 significant bits, and the subnormal numbers from 2^-1074
    (results beyond the largest finite number, which the program cannot
    reach, are not modelled). *)
Module Binary64.

(** The [e] with 2^(e-1) <= x < 2^e, for a positive [x]. *)

Definition magnitude (x : Q) : Z :=
  let k := Z.log2 (Qnum x) - Z.log2 (Zpos (Qden x)) in
  if Qle_bool (2 ^ k) x then k + 1 else k.

(** The nearest integer, a half going to the even one. *)
Definition round_half_even (x : Q) : Z :=
  let f := Qfloor x in
  match (x - inject_Z f ?= 1 # 2)%Q with
  | Lt => f
  | Gt => f + 1
  | Eq => if Z.even f then f else f + 1
  end.

(** The exponent of the unit in the last place of [x]. *)
Definition ulp_exponent (x : Q) : Z := Z.max (magnitude x - 53) (-1074).

Definition round_positive (x : Q) : Q :=
  let e := ulp_exponent x in
  (inject_Z (round_half_even (x / 2 ^ e)) * 2 ^ e)%Q.

Definition round (x : Q) : Q :=
  match Qnum x with
  | Z0 => 0%Q
  | Zpos _ => round_positive x
  | Zneg _ => (- round_positive (- x))%Q
  end.
End Binary64.

(* ================================================================== *)
(** ** Analytics page: [fetchAnalytics] *)
(* ================================================================== *)

Module Analytics.

(** An element of [dailyCompletion]. *)
Module Day.
Record t : Type := { date : string; completed : Z; total : Z }.
End Day.

(** An element of [categoryBreakdown]. *)
Module Slice.
Record t : Type := { name : string; value : Z; color : string }.
End Slice.

(** An element of [timeSpent]. *)
Module Point.
Record t : Type := { date : string; minutes : Z }.
End Point.

Record WeeklyStats : Type := {
  tasksCompleted : Z;
  timeTracked : Z;
  averageTimePerTask : Z;
  completionRate : Z
}.

Record AnalyticsData : Type := {
  dailyCompletion : list Day.t;
  categoryBreakdown : list Slice.t;
  timeSpent : list Point.t;
  weeklyStats : WeeklyStats
}.

Record State : Type := {
  analytics : AnalyticsData;
  loading : bool
}.

(** The component as it mounts. *)
Definition initial : State :=
  {| analytics :=
       {| dailyCompletion := []; categoryBreakdown := []; timeSpent := [];
          weeklyStats := {| tasksCompleted := 0; timeTracked := 0;
                            averageTimePerTask := 0; completionRate := 0 |} |};
     loading := true |}.

(** A day of 24 hours and an hour, in milliseconds. *)
Definition MS_PER_DAY : Z := 86400000.
Definition MS_PER_HOUR : Z := 3600000.

Section Aggregate.

Context `{JSDate} `{JSNumber}.

(** [d.toISOString().split('T')[0]] and [s.split('T')[0]]. *)
Definition date_part (s : string) : string := JS.split_head "T"%char s.

(** The loop [for (d = new Date(startDate); d <= endDate; d.setDate(d.getDate() + 1))]
    that fills [dailyData], [fuel] bounding its iterations. *)
Fixpoint fill_days (fuel : nat) (d endDate : Z) (dailyData : JSMap.t Day.t) : JSMap.t Day.t :=
  match fuel with
  | O => dailyData
  | S fuel' =>
      if d <=? endDate then
        let dateStr := date_part (toISOString d) in
        fill_days fuel' (plusDays d 1) endDate
          (JSMap.set dateStr
             {| Day.date := dateStr; Day.completed := 0; Day.total := 0 |} dailyData)
      else dailyData
  end.

(** A bound on the iterations of the loop from [startDate] to [endDate]:
    one for each hour of the window and one more.  A step of the loop is
    a calendar day, which lasts more than an hour, so that the loop has
    ended by its own test before the bound is reached
    ([AnalyticsFacts.empty_days_terminates]). *)
Definition iterations_bound (startDate endDate : Z) : nat :=
  Z.to_nat ((endDate - startDate) / MS_PER_HOUR + 1).

Definition empty_days (startDate endDate : Z) : JSMap.t Day.t :=
  fill_days (iterations_bound startDate endDate) startDate endDate [].

(** The callback of the first [tasks?.forEach]. *)
Definition count_task (dailyData : JSMap.t Day.t) (task : Task) : JSMap.t Day.t :=
  let createdDate := date_part (created_at task) in
  match JSMap.get createdDate dailyData with
  | Some day =>
      JSMap.set createdDate
        {| Day.date := Day.date day;
           Day.completed :=
             if Rows.completed task then Day.completed day + 1 else Day.completed day;
           Day.total := Day.total day + 1 |} dailyData
  | None => dailyData
  end.

Definition dailyData_of (tasks : option (list Task)) (startDate endDate : Z) : JSMap.t Day.t :=
  fold_left count_task (or_empty tasks) (empty_days startDate endDate).

Definition relabel_day (day : Day.t) : Day.t :=
  {| Day.date := toLocaleWeekday (Day.date day);
     Day.completed := Day.completed day;
     Day.total := Day.total day |}.

(** The callback of the second [tasks?.forEach]. *)
Definition count_category (categoryData : JSMap.t Slice.t) (task : Task) : JSMap.t Slice.t :=
  match category task with
  | None => categoryData
  | Some c =>
      let categoryName := Rows.name c in
      match JSMap.get categoryName categoryData with
      | Some slice =>
          JSMap.set categoryName
            {| Slice.name := Slice.name slice;
               Slice.value := Slice.value slice + 1;
               Slice.color := Slice.color slice |} categoryData
      | None =>
          JSMap.set categoryName
            {| Slice.name := categoryName;
               Slice.value := 1;
               Slice.color := Rows.color c |} categoryData
      end
  end.

Definition categoryData_of (tasks : option (list Task)) : JSMap.t Slice.t :=
  fold_left count_category (or_empty tasks) [].

(** [entry.duration || 0]. *)
Definition duration_or_0 (entry : TimeEntry) : Z :=
  match duration entry with Some d => d | None => 0 end.

(** [Math.round((entry.duration || 0) / 60)]. *)
Definition entry_minutes (entry : TimeEntry) : Z :=
  Math_round (fl (inject_Z (duration_or_0 entry) / 60)).

(** The callback of [timeEntries?.forEach]. *)
Definition add_entry (timeData : JSMap.t Z) (entry : TimeEntry) : JSMap.t Z :=
  let date := date_part (start_time entry) in
  let minutes := entry_minutes entry in
  match JSMap.get date timeData with
  | Some m => JSMap.set date (m + minutes) timeData
  | None => JSMap.set date minutes timeData
  end.

Definition timeData_of (timeEntries : option (list TimeEntry)) : JSMap.t Z :=
  fold_left add_entry (or_empty timeEntries) [].

Definition label_point (e : string * Z) : Point.t :=
  {| Point.date := toLocaleWeekday (fst e); Point.minutes := snd e |}.

(** The tasks and entries of the last seven days. *)
Definition weekTasks_of (tasks : option (list Task)) (weekStart : Z) : list Task :=
  or_empty (opt_filter (fun task => date_ge (created_at task) weekStart) tasks).

Definition weekTimeEntries_of (timeEntries : option (list TimeEntry)) (weekStart : Z)
  : list TimeEntry :=
  or_empty (opt_filter (fun entry => date_ge (start_time entry) weekStart) timeEntries).

(** [weekTimeEntries.reduce((total, entry) => total + (entry.duration || 0), 0)]:
    a sum of numbers, each addition rounded to the number format. *)
Definition sum_durations (entries : list TimeEntry) : Q :=
  fold_left (fun total entry => fl (total + inject_Z (duration_or_0 entry))) entries 0%Q.

Definition weeklyStats_of (tasks : option (list Task)) (timeEntries : option (list TimeEntry))
  (weekStart : Z) : WeeklyStats :=
  let weekTasks := weekTasks_of tasks weekStart in
  let weekTimeEntries := weekTimeEntries_of timeEntries weekStart in
  let tasksCompleted := Z.of_nat (length (filter Rows.completed weekTasks)) in
  let timeTracked := sum_durations weekTimeEntries in
  let averageTimePerTask : Q :=
    if 0 <? tasksCompleted
    then fl (fl (timeTracked / inject_Z tasksCompleted) / 60)
    else 0%Q in
  let completionRate : Q :=
    if (0 <? length weekTasks)%nat
    then fl (fl (inject_Z tasksCompleted / inject_Z (Z.of_nat (length weekTasks))) * 100)
    else 0%Q in
  {| tasksCompleted := tasksCompleted;
     timeTracked := Math_round (fl (timeTracked / 60));
     averageTimePerTask := Math_round averageTimePerTask;
     completionRate := Math_round completionRate |}.

(** The snapshot [fetchAnalytics] computes from the rows it fetched:
    [startDate] and [endDate] bound the window, [weekStart] the last
    seven days. *)
Definition aggregate (tasks : option (list Task)) (timeEntries : option (list TimeEntry))
  (startDate endDate weekStart : Z) : AnalyticsData :=
  {| dailyCompletion :=
       map relabel_day (JS.slice_last 7 (JSMap.values (dailyData_of tasks startDate endDate)));
     categoryBreakdown := JSMap.values (categoryData_of tasks);
     timeSpent := map label_point (JS.slice_last 7 (JSMap.entries (timeData_of timeEntries)));
     weeklyStats := weeklyStats_of tasks timeEntries weekStart |}.

(** The tables behind the two selects, and whether a select fails. *)
Record Database : Type := {
  tasks_table : list Task;
  time_entries_table : list TimeEntry;
  tasksError : bool;
  timeError : bool
}.

(** [from('tasks').select(...).eq('user_id', user).gte('created_at', startDate)]. *)
Definition select_tasks (db : Database) (user : string) (startDate : Z) : QueryReply Task :=
  if tasksError db then query_error
  else query_data
         (Some (filter (fun task => String.eqb (user_id task) user
                                    && date_ge (created_at task) startDate)
                  (tasks_table db))).

(** [from('time_entries').select('*').eq('user_id', user)
      .gte('start_time', startDate).not('duration', 'is', null)]. *)
Definition select_time_entries (db : Database) (user : string) (startDate : Z)
  : QueryReply TimeEntry :=
  if timeError db then query_error
  else query_data
         (Some (filter (fun entry => String.eqb (entry_user_id entry) user
                                     && date_ge (start_time entry) startDate
                                     && match duration entry with
                                        | Some _ => true
                                        | None => false
                                        end)
                  (time_entries_table db))).

(** [fetchAnalytics]: [now1], [now2] and [now3] are the values of its
    three [new Date()], the last one read once the rows have arrived.  On
    an error the snapshot is kept and a toast is shown ([true]). *)
Definition fetchAnalytics (db : Database) (user : string) (now1 now2 now3 : Z) (s : State)
  : State * bool :=
  let endDate := now1 in
  let startDate := plusDays now2 (-30) in
  match select_tasks db user startDate with
  | query_error => ({| analytics := analytics s; loading := false |}, true)
  | query_data tasks =>
      match select_time_entries db user startDate with
      | query_error => ({| analytics := analytics s; loading := false |}, true)
      | query_data timeEntries =>
          let weekStart := plusDays now3 (-7) in
          ({| analytics := aggregate tasks timeEntries startDate endDate weekStart;
              loading := false |}, false)
      end
  end.

End Aggregate.

End Analytics.

(* ================================================================== *)
(** ** An environment: dates in a UTC zone *)
(* ================================================================== *)

(** The calendar of the examples: a zone at UTC, without change of its
    clocks, so that a calendar day is 24 hours.  Its parser reads the
    time stamps of the examples, a date or a date and a time in UTC with
    or without milliseconds; [Date.parse] reads more formats than these
    (an offset such as +00:00, fractions of other lengths). *)
Module UTC.

Definition MS_PER_DAY : Z := 86400000.

(** Days since 1970-01-01 of a date of the proleptic Gregorian calendar. *)
Definition days_from_civil (y m d : Z) : Z :=
  let y := if m <=? 2 then y - 1 else y in
  let era := y / 400 in
  let yoe := y - era * 400 in
  let mp := (m + 9) mod 12 in
  let doy := (153 * mp + 2) / 5 + d - 1 in
  let doe := yoe * 365 + yoe / 4 - yoe / 100 + doy in
  era * 146097 + doe - 719468.

(** The year, month and day of a number of days since 1970-01-01. *)
Definition civil_from_days (z : Z) : Z * Z * Z :=
  let z := z + 719468 in
  let era := z / 146097 in
  let doe := z - era * 146097 in
  let yoe := (doe - doe / 1460 + doe / 36524 - doe / 146096) / 365 in
  let doy := doe - (365 * yoe + yoe / 4 - yoe / 100) in
  let mp := (5 * doy + 2) / 153 in
  let d := doy - (153 * mp + 2) / 5 + 1 in
  let m := if mp <? 10 then mp + 3 else mp - 9 in
  let y := yoe + era * 400 in
  (if m <=? 2 then y + 1 else y, m, d).

Definition digit (c : ascii) : option Z :=
  let n := nat_of_ascii c in
  if (Nat.leb 48 n && Nat.leb n 57)%bool then Some (Z.of_nat (n - 48)) else None.

(** Reads exactly [n] decimal digits. *)
Fixpoint read_digits (n : nat) (acc : Z) (s : string) : option (Z * string) :=
  match n with
  | O => Some (acc, s)
  | S n' =>
      match s with
      | String c s' =>
          match digit c with
          | Some v => read_digits n' (10 * acc + v) s'
          | None => None
          end
      | EmptyString => None
      end
  end.

(** Reads the character [c]. *)
Definition read_char (c : ascii) (s : string) : option string :=
  match s with
  | String c' s' => if Ascii.eqb c c' then Some s' else None
  | EmptyString => None
  end.

Definition in_range (lo v hi : Z) : bool := (lo <=? v) && (v <=? hi).

(** [YYYY-MM-DD]: the date and what follows it. *)
Definition read_date (s : string) : option (Z * string) :=
  match read_digits 4 0 s with
  | Some (y, s) =>
    match read_char "-" s with
    | Some s =>
      match read_digits 2 0 s with
      | Some (m, s) =>
        match read_char "-" s with
        | Some s =>
          match read_digits 2 0 s with
          | Some (d, s) =>
              if in_range 1 m 12 && in_range 1 d 31
              then Some (days_from_civil y m d, s) else None
          | None => None
          end
        | None => None
        end
      | None => None
      end
    | None => None
    end
  | None => None
  end.

(** [HH:MM:SS], [HH:MM:SS.mmm], each with an optional [Z]: milliseconds
    of the day. *)
Definition read_time (s : string) : option Z :=
  match read_digits 2 0 s with
  | Some (h, s) =>
    match read_char ":" s with
    | Some s =>
      match read_digits 2 0 s with
      | Some (mi, s) =>
        match read_char ":" s with
        | Some s =>
          match read_digits 2 0 s with
          | Some (sec, s) =>
              let base := ((h * 60 + mi) * 60 + sec) * 1000 in
              if in_range 0 h 23 && in_range 0 mi 59 && in_range 0 sec 59 then
                match s with
                | "" | "Z" => Some base
                | String "." s =>
                    match read_digits 3 0 s with
                    | Some (ms, "") | Some (ms, "Z") => Some (base + ms)
                    | _ => None
                    end
                | _ => None
                end
              else None
          | None => None
          end
        | None => None
        end
      | None => None
      end
    | None => None
    end
  | None => None
  end.

(** The time value of a date in the formats [YYYY-MM-DD] and
    [YYYY-MM-DDTHH:MM:SS(.mmm)(Z)]; any other string is an invalid date. *)
Definition parse (s : string) : option Z :=
  match read_date s with
  | Some (days, "") => Some (days * MS_PER_DAY)
  | Some (days, String "T" s) =>
      match read_time s with
      | Some ms => Some (days * MS_PER_DAY + ms)
      | None => None
      end
  | _ => None
  end.

Definition digit_char (v : Z) : ascii := ascii_of_nat (48 + Z.to_nat (v mod 10)).

Definition pad2 (v : Z) : string :=
  String (digit_char (v / 10)) (String (digit_char v) "").

Definition pad3 (v : Z) : string := String (digit_char (v / 100)) (pad2 v).

Definition pad4 (v : Z) : string := String (digit_char (v / 1000)) (pad3 v).

(** [YYYY-MM-DDTHH:MM:SS.mmmZ], for the years 0 to 9999. *)
Definition format (t : Z) : string :=
  let '(y, m, d) := civil_from_days (t / MS_PER_DAY) in
  let ms := t mod MS_PER_DAY in
  (pad4 y ++ "-" ++ pad2 m ++ "-" ++ pad2 d ++ "T"
   ++ pad2 (ms / 3600000) ++ ":" ++ pad2 (ms / 60000 mod 60) ++ ":"
   ++ pad2 (ms / 1000 mod 60) ++ "." ++ pad3 (ms mod 1000) ++ "Z")%string.

Definition weekday_name (i : Z) : string :=
  match i with
  | 0 => "Sun" | 1 => "Mon" | 2 => "Tue" | 3 => "Wed"
  | 4 => "Thu" | 5 => "Fri" | _ => "Sat"
  end.

Definition weekday (s : string) : string :=
  match parse s with
  | Some t => weekday_name ((t / MS_PER_DAY + 4) mod 7)
  | None => "Invalid Date"
  end.

#[export] Instance dates : JSDate := {|
  Date_parse := parse;
  toISOString := format;
  toLocaleWeekday := weekday;
  startOfLocalDay := fun now => now - now mod MS_PER_DAY;
  plusDays := fun d n => d + n * MS_PER_DAY
|}.

End UTC.

(* ================================================================== *)
(** ** What the pages draw *)
(* ================================================================== *)

(** The completion rate under the Completed card of the dashboard:
    [totalTasks > 0 ? Math.round((completedTasks / totalTasks) * 100) : 0]. *)
Module DashboardView.

Definition completion_percent `{JSNumber} (stats : Dashboard.Stats) : Z :=
  if 0 <? Dashboard.totalTasks stats
  then Math_round (fl (fl (inject_Z (Dashboard.completedTasks stats)
                           / inject_Z (Dashboard.totalTasks stats)) * 100))
  else 0.

End DashboardView.

(** The controls of the timer card, and the events they let through. *)
Module TimerView.
Import Timer.

(** The three numbers [formatTime] prints. *)
Definition time_fields (seconds : Z) : Z * Z * Z :=
  (seconds / 3600, Z.rem seconds 3600 / 60, Z.rem seconds 60).

(** The share of the estimate drawn beside it,
    [Math.round((currentTime / 60 / estimated_time) * 100)]: shown when
    the task has an estimate (not 0) and the counter is above 0. *)
Definition estimate_percent `{JSNumber} (currentTime estimated_time : Z) : Z :=
  Math_round (fl (fl (fl (inject_Z currentTime / 60) / inject_Z estimated_time) * 100)).

Definition estimate_note `{JSNumber} (s : State) (task : Task) : option Z :=
  match estimated_time task with
  | Some estimate =>
      if (estimate =? 0) || negb (0 <? currentTime s) then None
      else Some (estimate_percent (currentTime s) estimate)
  | None => None
  end.

(** [tasks.find(task => task.id === selectedTaskId)]: the card shows the
    clock and its buttons only when it is found. *)
Definition selectedTask (tasks : list Task) (s : State) : option Task :=
  JS.find (fun task => String.eqb (id task) (selectedTaskId s)) tasks.

Definition shows_controls (tasks : list Task) (s : State) : bool :=
  match selectedTask tasks s with Some _ => true | None => false end.

(** [!isRunning && !activeEntryId], [isRunning] and [activeEntryId]. *)
Definition shows_start (tasks : list Task) (s : State) : bool :=
  shows_controls tasks s && negb (isRunning s) && negb (JS.truthy_opt (activeEntryId s)).

Definition shows_pause (tasks : list Task) (s : State) : bool :=
  shows_controls tasks s && isRunning s.

Definition shows_stop (tasks : list Task) (s : State) : bool :=
  shows_controls tasks s && JS.truthy_opt (activeEntryId s).

End TimerView.

(* ================================================================== *)
(** * Properties *)
(* ================================================================== *)

(** ** Strings *)

Module JSFacts.

Lemma startsWith_spec (s p : string) :
  JS.startsWith s p = true <-> exists post, s = (p ++ post)%string.
Proof.
  revert s; induction p as [|a p IH]; intros [|b s]; simpl.
  - split; [intros _; now exists ""%string | reflexivity].
  - split; [intros _; now exists (String b s) | reflexivity].
  - split; [discriminate | intros [post E]; discriminate].
  - rewrite andb_true_iff, Ascii.eqb_eq, IH. split.
    + intros [-> [post ->]]. now exists post.
    + intros [post E]. injection E as -> ->. split; [reflexivity | now exists post].
Qed.

Lemma includes_spec (s sub : string) :
  JS.includes s sub = true <-> exists pre post, s = (pre ++ sub ++ post)%string.
Proof.
  induction s as [|c s IH].
  - cbn [JS.includes]. rewrite orb_false_r, startsWith_spec. split.
    + intros [post E]. now exists ""%string, post.
    + intros [pre [post E]]. destruct pre; [now exists post | discriminate].
  - cbn [JS.includes]. rewrite orb_true_iff, startsWith_spec, IH. split.
    + intros [[post E] | [pre [post E]]].
      * now exists ""%string, post.
      * exists (String c pre), post. simpl. now rewrite E.
    + intros [[|a pre] [post E]].
      * left. now exists post.
      * right. simpl in E. injection E as _ E. now exists pre, post.
Qed.

Lemma toLowerCase_app (a b : string) :
  JS.toLowerCase (a ++ b) = (JS.toLowerCase a ++ JS.toLowerCase b)%string.
Proof. induction a as [|c a IH]; simpl; [reflexivity | now rewrite IH]. Qed.

(** A split of the lowered string comes from a split of the string. *)
Lemma toLowerCase_split (x y s : string) :
  JS.toLowerCase s = (x ++ y)%string ->
  exists a b, s = (a ++ b)%string /\ JS.toLowerCase a = x /\ JS.toLowerCase b = y.
Proof.
  revert s; induction x as [|c x IH]; intros s E.
  - now exists ""%string, s.
  - destruct s as [|d s]; [discriminate|]. simpl in E. injection E as Ec E.
    destruct (IH _ E) as [a [b [-> [Ha Hb]]]].
    exists (String d a), b. simpl. now rewrite Ec, Ha.
Qed.

(** Every code unit of the range 0..255. *)
Definition all_ascii : list ascii := map ascii_of_nat (seq 0 256).

Lemma all_ascii_complete (c : ascii) : In c all_ascii.
Proof.
  rewrite <- (ascii_nat_embedding c). apply in_map, in_seq.
  pose proof (nat_ascii_bounded c). lia.
Qed.

(** [toLowerCase] sends two code units to the same one exactly when they
    are the same letter, case ignored: all 65536 pairs are checked. *)
Lemma lower_char_same_letter (a b : ascii) :
  Ascii.eqb (JS.lower_char a) (JS.lower_char b) = Tasks.same_letter a b.
Proof.
  assert (forallb (fun a =>
            forallb (fun b =>
              Bool.eqb (Ascii.eqb (JS.lower_char a) (JS.lower_char b))
                       (Tasks.same_letter a b)) all_ascii) all_ascii = true) as Hall
    by (vm_compute; reflexivity).
  rewrite forallb_forall in Hall.
  specialize (Hall a (all_ascii_complete a)).
  rewrite forallb_forall in Hall.
  specialize (Hall b (all_ascii_complete b)).
  now apply Bool.eqb_prop in Hall.
Qed.

Lemma toLowerCase_eq (s1 s2 : string) :
  JS.toLowerCase s1 = JS.toLowerCase s2 <-> Tasks.equal_ignoring_case s1 s2 = true.
Proof.
  revert s2; induction s1 as [|a s1 IH]; intros [|b s2]; simpl.
  - tauto.
  - split; discriminate.
  - split; discriminate.
  - rewrite andb_true_iff, <- IH, <- lower_char_same_letter, Ascii.eqb_eq. split.
    + intros E. now injection E.
    + intros [-> ->]. reflexivity.
Qed.

(** The test of the search filter is the containment of the
    specification: a substring, letter case ignored. *)
Lemma includes_lower_spec (hay needle : string) :
  JS.includes (JS.toLowerCase hay) (JS.toLowerCase needle) = true
  <-> Tasks.contains_ci hay needle.
Proof.
  rewrite includes_spec. unfold Tasks.contains_ci. split.
  - intros [x [y E]].
    destruct (toLowerCase_split _ _ _ E) as [pre [rest [-> [_ Hrest]]]].
    destruct (toLowerCase_split _ _ _ Hrest) as [mid [post [-> [Hmid _]]]].
    exists pre, mid, post. split; [reflexivity | now apply toLowerCase_eq].
  - intros [pre [mid [post [-> Hmid]]]].
    apply toLowerCase_eq in Hmid.
    exists (JS.toLowerCase pre), (JS.toLowerCase post).
    now rewrite !toLowerCase_app, Hmid.
Qed.

Lemma truthy_true (s : string) : JS.truthy s = true <-> s <> ""%string.
Proof. destruct s; simpl; split; congruence. Qed.

End JSFacts.

(** ** The task filter *)

Module TasksFacts.
Import Tasks.

Lemma subsequence_refl {A : Type} (l : list A) : subsequence l l.
Proof. induction l; constructor; assumption. Qed.

Lemma subsequence_trans {A : Type} (l1 l2 l3 : list A) :
  subsequence l1 l2 -> subsequence l2 l3 -> subsequence l1 l3.
Proof.
  intros H12 H23; revert l1 H12.
  induction H23 as [|x l2 l3 _ IH|x l2 l3 _ IH]; intros l1 H12.
  - assumption.
  - constructor; now apply IH.
  - inversion H12; subst; constructor; now apply IH.
Qed.

Lemma subsequence_filter {A : Type} (p : A -> bool) (l : list A) :
  subsequence (filter p l) l.
Proof.
  induction l as [|x l IH]; simpl; [constructor|].
  destruct (p x); constructor; assumption.
Qed.

Lemma filter_filter {A : Type} (p q : A -> bool) (l : list A) :
  filter q (filter p l) = filter (fun x => p x && q x) l.
Proof.
  induction l as [|x l IH]; simpl; [reflexivity|].
  destruct (p x); simpl; [destruct (q x)|]; now rewrite IH.
Qed.

Lemma filter_all {A : Type} (l : list A) : filter (fun _ => true) l = l.
Proof. induction l; simpl; congruence. Qed.

(** The three steps of [filterTasks] as one test. *)
Definition keeps (searchQuery : string) (statusFilter : StatusFilter)
  (priorityFilter : PriorityFilter) (task : Task) : bool :=
  (if JS.truthy (JS.trim searchQuery) then search_pred searchQuery task else true)
  && match statusFilter with status_all => true | _ => status_pred statusFilter task end
  && match priorityFilter with priority_all => true | _ => priority_pred priorityFilter task end.

Lemma filtered_keeps (tasks : list Task) q st pr :
  filtered tasks q st pr = filter (keeps q st pr) tasks.
Proof.
  unfold filtered, keeps.
  transitivity
    (filter (fun t => match pr with priority_all => true | _ => priority_pred pr t end)
       (filter (fun t => match st with status_all => true | _ => status_pred st t end)
          (filter (fun t => if JS.truthy (JS.trim q) then search_pred q t else true)
             tasks))).
  - destruct (JS.truthy (JS.trim q)), st, pr; cbn beta iota;
      rewrite ?filter_all; reflexivity.
  - rewrite !filter_filter. apply filter_ext. intros t.
    now rewrite andb_assoc.
Qed.

Lemma search_pred_spec q task :
  search_pred q task = true <-> matches_search q task.
Proof.
  unfold search_pred, matches_search.
  rewrite orb_true_iff, JSFacts.includes_lower_spec.
  destruct (description task) as [d|].
  - rewrite JSFacts.includes_lower_spec. split.
    + intros [Ht | Hd]; [now left | right; now exists d].
    + intros [Ht | [d' [E Hd]]]; [now left | right; congruence].
  - split.
    + intros [Ht | Hd]; [now left | discriminate].
    + intros [Ht | [d' [E _]]]; [now left | discriminate].
Qed.

Lemma status_spec st task :
  match st with status_all => true | _ => status_pred st task end = true
  <-> passes_status st task.
Proof.
  destruct st; simpl; try tauto.
  now rewrite negb_true_iff.
Qed.

Lemma priority_spec pr task :
  match pr with priority_all => true | _ => priority_pred pr task end = true
  <-> passes_priority pr task.
Proof.
  destruct pr; simpl; unfold priority_pred; rewrite ?String.eqb_eq; tauto.
Qed.

(** C7. With an empty search text and both filters on "all" the filter
    returns the task list as it is; for every search text, status filter
    and priority filter its output is a subsequence of the input: some
    tasks removed, the others in their order. *)
Theorem filter_identity_and_order :
  (forall tasks : list Task, filtered tasks "" status_all priority_all = tasks)
  /\ (forall (tasks : list Task) q st pr, subsequence (filtered tasks q st pr) tasks).
Proof.
  split.
  - intros tasks. reflexivity.
  - intros tasks q st pr. rewrite filtered_keeps. apply subsequence_filter.
Qed.

(** Outside the range 0..255 the search can miss a title that holds the
    search text letter for letter: searching for a capital sigma, a task
    titled with a capital alpha and a capital sigma is not kept.  The
    title is lowered to alpha and final sigma, the search text to the
    plain sigma. *)
Lemma greek_title_not_found :
  UTF16.search_pred [931%N] [913%N; 931%N] None = false
  /\ UTF16.toLowerCase [913%N; 931%N] = [945%N; 962%N]
  /\ UTF16.toLowerCase [931%N] = [963%N]
  /\ [913%N; 931%N] = [913%N] ++ [931%N] ++ [].
Proof. repeat split. Qed.

(** C8. For texts of the range 0..255 (Basic Latin and Latin-1): when
    the trimmed search text is not empty, the filter keeps exactly the
    tasks whose title or description contains the search text as a
    substring, a capital letter and its small letter counting as the
    same character (a task without a description can only match by its
    title), and that pass the status filter and the priority filter: the
    three conditions are conjoined. *)
Theorem filter_search_status_priority (tasks : list Task) q st pr :
  JS.trim q <> ""%string ->
  exists keep : Task -> bool,
    filtered tasks q st pr = filter keep tasks
    /\ forall task,
         keep task = true
         <-> (contains_ci (title task) q
              \/ exists d, description task = Some d /\ contains_ci d q)
             /\ passes_status st task
             /\ passes_priority pr task.
Proof.
  intros Hq. exists (keeps q st pr). split; [apply filtered_keeps|].
  intros task. unfold keeps.
  apply JSFacts.truthy_true in Hq. rewrite Hq.
  rewrite !andb_true_iff, search_pred_spec, status_spec, priority_spec.
  unfold matches_search. tauto.
Qed.

Definition sample_task (i t : string) (d : option string) (c : bool) (due : option string)
  (p : string) : Task :=
  {| id := i; user_id := "u1"; title := t; description := d; completed := c;
     due_date := due; priority := p; estimated_time := None;
     created_at := "2024-03-31T08:00:00Z"; category := None |}.

(** Four tasks searched for "mint", pending ones only.  The first is kept
    for its title, written in capitals; the second has the word in its
    description but is completed; the third is kept for its description,
    written with a capital; the fourth does not hold the word. *)
Definition mint_tasks : list Task :=
  [sample_task "1" "Plant MINT" None false None "high";
   sample_task "2" "Water" (Some "the mint bed") true None "low";
   sample_task "3" "Order seeds" (Some "Basil and Mint") false None "low";
   sample_task "4" "Mow the lawn" None false None "medium"].

Lemma filter_search_status_priority_witness :
  (exists keep : Task -> bool,
     filtered mint_tasks "mint" status_pending priority_all = filter keep mint_tasks
     /\ forall task,
          keep task = true
          <-> (contains_ci (title task) "mint"
               \/ exists d, description task = Some d /\ contains_ci d "mint")
              /\ passes_status status_pending task
              /\ passes_priority priority_all task)
  /\ filtered mint_tasks "mint" status_pending priority_all
     = [sample_task "1" "Plant MINT" None false None "high";
        sample_task "3" "Order seeds" (Some "Basil and Mint") false None "low"].
Proof.
  split.
  - apply (filter_search_status_priority mint_tasks "mint" status_pending priority_all).
    vm_compute. discriminate.
  - vm_compute. reflexivity.
Defined.

Lemma filtered_In (tasks : list Task) q st pr task :
  In task (filtered tasks q st pr) -> In task tasks.
Proof. rewrite filtered_keeps. intros Hin. now apply filter_In in Hin. Qed.

(** What [find] returns is the first element that passes the test. *)
Lemma find_first {A : Type} (p : A -> bool) (l : list A) :
  match JS.find p l with
  | Some x =>
      exists before after,
        l = before ++ x :: after /\ p x = true /\ forall y, In y before -> p y = false
  | None => forall y, In y l -> p y = false
  end.
Proof.
  unfold JS.find. induction l as [|a l IH]; simpl.
  - intros y [].
  - destruct (p a) eqn:Ea.
    + exists [], l. repeat split; [assumption | intros y []].
    + destruct (List.find p l) as [x|].
      * destruct IH as [before [after [-> [Hx Hb]]]].
        exists (a :: before), after. repeat split; [assumption|].
        intros y [<- | Hy]; [assumption | now apply Hb].
      * intros y [<- | Hy]; [assumption | now apply IH].
Qed.

Definition same_due_date (dueDate : string) (t : Task) : bool :=
  match due_date t with Some d => String.eqb d dueDate | None => false end.

Lemma same_due_date_spec dueDate t :
  same_due_date dueDate t = true <-> due_date t = Some dueDate.
Proof.
  unfold same_due_date. destruct (due_date t) as [d|].
  - rewrite String.eqb_eq. split; congruence.
  - split; discriminate.
Qed.

(** C9. For a task of the filtered list whose due date is past, the
    overdue mark is the negation of the completion status of the first
    task of the whole task list that has the same due-date string, whatever
    the task's own status; so all tasks with one due date get one verdict. *)
Theorem overdue_verdict_of_first_same_due_date `{JSDate}
  (s : State) (now : Z) (task : Task) (d : string) :
  In task (filteredTasks (filterTasks s)) ->
  due_date task = Some d ->
  JS.truthy d = true ->
  date_lt d now = true ->
  (exists before first after,
     tasks s = before ++ first :: after
     /\ due_date first = Some d
     /\ (forall t, In t before -> due_date t <> Some d)
     /\ overdue_indicator (filterTasks s) now task = Some (negb (completed first)))
  /\ (forall other, due_date other = Some d ->
        overdue_indicator (filterTasks s) now other
        = overdue_indicator (filterTasks s) now task).
Proof.
  intros Hin Hd Ht Hlt. split.
  - apply filtered_In in Hin.
    unfold overdue_indicator, isOverdue. rewrite Hd, Ht, Hlt. cbn [filterTasks tasks].
    pose proof (find_first (same_due_date d) (tasks s)) as Hf.
    unfold same_due_date in Hf.
    destruct (JS.find _ (tasks s)) as [first|].
    + destruct Hf as [before [after [E [Hfirst Hbefore]]]].
      exists before, first, after. repeat split; try assumption.
      * now apply (same_due_date_spec d first).
      * intros t Hb Ht'. apply (same_due_date_spec d t) in Ht'.
        unfold same_due_date in Ht'. rewrite (Hbefore t Hb) in Ht'. discriminate.
    + specialize (Hf task Hin). rewrite Hd, String.eqb_refl in Hf. discriminate.
  - intros other Ho. unfold overdue_indicator. now rewrite Ho, Hd.
Qed.

(** Two tasks due on the same past date, the first one completed. *)
Definition two_tasks_one_date : State :=
  {| tasks := [sample_task "1" "Report" None true (Some "2024-03-01T09:00:00Z") "high";
               sample_task "2" "Slides" None false (Some "2024-03-01T09:00:00Z") "low"];
     filteredTasks := [];
     searchQuery := "";
     statusFilter := status_all;
     priorityFilter := priority_all |}.

Lemma overdue_verdict_of_first_same_due_date_witness :
  (exists before first after,
     tasks two_tasks_one_date = before ++ first :: after
     /\ due_date first = Some "2024-03-01T09:00:00Z"%string
     /\ (forall t, In t before -> due_date t <> Some "2024-03-01T09:00:00Z"%string)
     /\ overdue_indicator (H := UTC.dates) (filterTasks two_tasks_one_date) 1711886400000
          (sample_task "2" "Slides" None false (Some "2024-03-01T09:00:00Z") "low")
        = Some (negb (completed first)))
  /\ (forall other, due_date other = Some "2024-03-01T09:00:00Z"%string ->
        overdue_indicator (H := UTC.dates) (filterTasks two_tasks_one_date) 1711886400000 other
        = overdue_indicator (H := UTC.dates) (filterTasks two_tasks_one_date) 1711886400000
            (sample_task "2" "Slides" None false (Some "2024-03-01T09:00:00Z") "low")).
Proof.
  apply (overdue_verdict_of_first_same_due_date (H := UTC.dates) two_tasks_one_date
           1711886400000
           (sample_task "2" "Slides" None false (Some "2024-03-01T09:00:00Z") "low")
           "2024-03-01T09:00:00Z").
  - vm_compute. right. left. reflexivity.
  - reflexivity.
  - reflexivity.
  - vm_compute. reflexivity.
Defined.

(** The pending task "Slides", a month late, is not drawn as overdue:
    the verdict is that of "Report", completed and due at the same time. *)
Example overdue_verdict_not_own_status :
  completed (sample_task "2" "Slides" None false (Some "2024-03-01T09:00:00Z") "low") = false
  /\ date_lt (H := UTC.dates) "2024-03-01T09:00:00Z" 1711886400000 = true
  /\ overdue_indicator (H := UTC.dates) (filterTasks two_tasks_one_date) 1711886400000
       (sample_task "2" "Slides" None false (Some "2024-03-01T09:00:00Z") "low")
     = Some false.
Proof. vm_compute. repeat split. Qed.

End TasksFacts.

(** ** The dashboard stats *)

Module DashboardFacts.
Import Dashboard.

Definition plain_task (i : string) (c : bool) (due : option string) : Task :=
  {| id := i; user_id := "u1"; title := "task"; description := None; completed := c;
     due_date := due; priority := "medium"; estimated_time := None;
     created_at := "2024-03-31T08:00:00Z"; category := None |}.

(** At noon of 2024-03-31, three tasks created that day: two completed,
    one pending and due at 09:00, three hours ago. *)
Definition noon : Z := 1711886400000.
Definition three_tasks : list Task :=
  [plain_task "1" true None; plain_task "2" true None;
   plain_task "3" false (Some "2024-03-31T09:00:00Z")].

(** C3, as stated, fails: the task due earlier today is not counted. *)
Lemma overdue_ignores_earlier_today :
  length three_tasks = 3%nat
  /\ length (filter completed three_tasks) = 2%nat
  /\ date_lt (H := UTC.dates) "2024-03-31T09:00:00Z" noon = true
  /\ calculate_stats (H := UTC.dates) (Some three_tasks) noon
     = {| totalTasks := 3; completedTasks := 2; todayTasks := 1; overdueTasks := 0 |}.
Proof. vm_compute. repeat split. Qed.

Lemma overdue_completed `{JSDate} today task :
  completed task = true -> overdue today task = false.
Proof.
  intros Hc. unfold overdue. rewrite Hc.
  destruct (due_date task); [now rewrite orb_true_r | reflexivity].
Qed.

Lemma overdue_pending `{JSDate} today task d :
  completed task = false -> due_date task = Some d -> JS.truthy d = true ->
  date_lt d today = true -> overdue today task = true.
Proof. intros Hc Hd Ht Hlt. unfold overdue. now rewrite Hd, Ht, Hc. Qed.

(** C3, amended. Of three tasks, two completed and one pending with a
    due date before the start of the current day, the stats count 3 tasks,
    2 completed and 1 overdue. *)
Theorem stats_of_three_tasks `{JSDate} (tasksData : list Task) (now : Z)
  (task : Task) (d : string) :
  length tasksData = 3%nat ->
  length (filter completed tasksData) = 2%nat ->
  In task tasksData ->
  completed task = false ->
  due_date task = Some d ->
  JS.truthy d = true ->
  date_lt d (startOfLocalDay now) = true ->
  totalTasks (calculate_stats (Some tasksData) now) = 3
  /\ completedTasks (calculate_stats (Some tasksData) now) = 2
  /\ overdueTasks (calculate_stats (Some tasksData) now) = 1.
Proof.
  intros Hlen Hdone Hin Hc Hd Ht Hlt.
  unfold calculate_stats; cbn [totalTasks completedTasks overdueTasks length_or_0 opt_filter].
  rewrite Hlen, Hdone. repeat split.
  destruct tasksData as [|a [|b [|c [|? ?]]]]; try discriminate.
  pose proof (overdue_pending _ _ _ Hc Hd Ht Hlt) as Ho.
  cbn [filter] in Hdone |- *.
  destruct Hin as [<- | [<- | [<- | []]]]; rewrite Hc in Hdone; rewrite Ho;
    repeat match goal with
           | Hd' : context [if completed ?x then _ else _] |- _ =>
               destruct (completed x) eqn:?; cbn [length] in Hd'; try discriminate
           end;
    rewrite ?overdue_completed by assumption; reflexivity.
Qed.

Lemma stats_of_three_tasks_witness :
  totalTasks (calculate_stats (H := UTC.dates)
                (Some [plain_task "1" true None; plain_task "2" true None;
                       plain_task "3" false (Some "2024-03-30T09:00:00Z")]) noon) = 3
  /\ completedTasks (calculate_stats (H := UTC.dates)
                (Some [plain_task "1" true None; plain_task "2" true None;
                       plain_task "3" false (Some "2024-03-30T09:00:00Z")]) noon) = 2
  /\ overdueTasks (calculate_stats (H := UTC.dates)
                (Some [plain_task "1" true None; plain_task "2" true None;
                       plain_task "3" false (Some "2024-03-30T09:00:00Z")]) noon) = 1.
Proof.
  apply (stats_of_three_tasks (H := UTC.dates)
           [plain_task "1" true None; plain_task "2" true None;
            plain_task "3" false (Some "2024-03-30T09:00:00Z")] noon
           (plain_task "3" false (Some "2024-03-30T09:00:00Z")) "2024-03-30T09:00:00Z").
  - reflexivity.
  - reflexivity.
  - simpl. right. right. left. reflexivity.
  - reflexivity.
  - reflexivity.
  - reflexivity.
  - vm_compute. reflexivity.
Defined.

End DashboardFacts.

(** ** The timer session *)

Module TimerFacts.
Import Timer.

Lemma state_eta (s : State) :
  {| selectedTaskId := selectedTaskId s; isRunning := isRunning s;
     currentTime := currentTime s; activeEntryId := activeEntryId s |} = s.
Proof. destruct s; reflexivity. Qed.

(** No handler reports a precondition failure. *)
Lemma reported_not_precondition (c : Call) : reported c <> Some PreconditionError.
Proof.
  destruct c as [| | |title description [|]]; simpl; try discriminate.
  destruct (String.eqb title "Select a task"); discriminate.
Qed.

(** C5. [startTimer] with no task selected reports a validation failure
    (the toast "Select a task"), calls the repository for nothing, and
    leaves the session as it was: not running, the counter and the active
    entry untouched. *)
Theorem startTimer_without_task `{JSDate} (repo : Repository) (user : option string)
  (now : Z) (s : State) :
  selectedTaskId s = ""%string ->
  fst (run (startTimer repo user now) s) = s
  /\ failures (snd (run (startTimer repo user now) s)) = [ValidationError]
  /\ filter is_repository_call (snd (run (startTimer repo user now) s)) = [].
Proof.
  intros Hsel. unfold run, startTimer. rewrite Hsel. cbn. repeat split.
Qed.

Definition no_repository : Repository :=
  {| insert_reply := fun _ _ => None; update_reply := fun _ _ _ => false |}.

Lemma startTimer_without_task_witness :
  fst (run (startTimer (H := UTC.dates) no_repository (Some "u1"%string) 1711886400000)
         initial) = initial
  /\ failures (snd (run (startTimer (H := UTC.dates) no_repository (Some "u1"%string)
                           1711886400000) initial)) = [ValidationError]
  /\ filter is_repository_call
       (snd (run (startTimer (H := UTC.dates) no_repository (Some "u1"%string)
                    1711886400000) initial)) = [].
Proof.
  apply (startTimer_without_task (H := UTC.dates) no_repository (Some "u1"%string)
           1711886400000 initial).
  reflexivity.
Defined.

(** C2, as stated, fails: [stopTimer] with no open entry returns without
    reporting anything; in particular no precondition failure. *)
Lemma stopTimer_idle_reports_nothing :
  activeEntryId initial = None
  /\ run (stopTimer (H := UTC.dates) no_repository 1711886400000) initial
     = (initial, [])
  /\ ~ In PreconditionError
       (failures (snd (run (stopTimer (H := UTC.dates) no_repository
                              1711886400000) initial))).
Proof. repeat split. intros []. Qed.

(** C2, amended. [stopTimer] with no open entry returns silently: it
    reports no failure, makes no call at all, and leaves the session as it
    was. *)
Theorem stopTimer_without_entry `{JSDate} (repo : Repository) (now : Z) (s : State) :
  activeEntryId s = None ->
  fst (run (stopTimer repo now) s) = s
  /\ failures (snd (run (stopTimer repo now) s)) = []
  /\ snd (run (stopTimer repo now) s) = [].
Proof.
  intros Hno. unfold run, stopTimer. rewrite Hno. cbn. repeat split.
Qed.

Lemma stopTimer_without_entry_witness :
  fst (run (stopTimer (H := UTC.dates) no_repository 0) initial) = initial
  /\ failures (snd (run (stopTimer (H := UTC.dates) no_repository 0) initial)) = []
  /\ snd (run (stopTimer (H := UTC.dates) no_repository 0) initial) = [].
Proof.
  apply (stopTimer_without_entry (H := UTC.dates) no_repository 0 initial).
  reflexivity.
Defined.

(** The other paths of the two handlers, for reference. *)

Definition repository_ok : Repository :=
  {| insert_reply := fun _ _ => Some "e1"%string; update_reply := fun _ _ _ => true |}.

Example startTimer_starts :
  run (startTimer (H := UTC.dates) repository_ok (Some "u1"%string) 1711886400000)
    {| selectedTaskId := "t1"; isRunning := false; currentTime := 7; activeEntryId := None |}
  = ({| selectedTaskId := "t1"; isRunning := true; currentTime := 0;
        activeEntryId := Some "e1"%string |},
     [insert_time_entry (Some "u1"%string) "t1" "2024-03-31T12:00:00.000Z";
      toast "Timer started" "Time tracking has begun for the selected task."
        default_variant]).
Proof. vm_compute. reflexivity. Qed.

Example stopTimer_logs_counter :
  run (stopTimer (H := UTC.dates) repository_ok 1711886400000)
    {| selectedTaskId := "t1"; isRunning := true; currentTime := 1500;
       activeEntryId := Some "e1"%string |}
  = ({| selectedTaskId := "t1"; isRunning := false; currentTime := 0;
        activeEntryId := None |},
     [update_time_entry "e1" "2024-03-31T12:00:00.000Z" 1500;
      fetchTimeEntries;
      toast "Timer stopped" "Time logged: 25:00" default_variant]).
Proof. vm_compute. reflexivity. Qed.

Example stopTimer_repository_failure :
  run (stopTimer (H := UTC.dates) no_repository 1711886400000)
    {| selectedTaskId := "t1"; isRunning := true; currentTime := 1500;
       activeEntryId := Some "e1"%string |}
  = ({| selectedTaskId := "t1"; isRunning := true; currentTime := 1500;
        activeEntryId := Some "e1"%string |},
     [update_time_entry "e1" "2024-03-31T12:00:00.000Z" 1500;
      toast "Error" "Failed to stop timer." destructive]).
Proof. vm_compute. reflexivity. Qed.

End TimerFacts.

(** ** Maps in insertion order *)

Module JSMapFacts.
Import JSMap.

Section Facts.

Context {V : Type}.
Implicit Types (m : t V) (k : string) (v : V).

Lemma get_set_same k v m : get k (set k v m) = Some v.
Proof.
  induction m as [|[k' v'] m IH]; simpl.
  - now rewrite String.eqb_refl.
  - destruct (String.eqb_spec k' k) as [->|Hne]; simpl.
    + now rewrite String.eqb_refl.
    + destruct (String.eqb_spec k' k); [contradiction | exact IH].
Qed.

Lemma get_set_other k k0 v m : k <> k0 -> get k0 (set k v m) = get k0 m.
Proof.
  intros Hne. induction m as [|[k' v'] m IH]; simpl.
  - destruct (String.eqb_spec k k0); [contradiction | reflexivity].
  - destruct (String.eqb_spec k' k) as [->|Hk]; simpl.
    + destruct (String.eqb_spec k k0); [contradiction | reflexivity].
    + now rewrite IH.
Qed.

Lemma get_None k m : get k m = None <-> ~ In k (keys m).
Proof.
  induction m as [|[k' v'] m IH]; simpl.
  - tauto.
  - destruct (String.eqb_spec k' k) as [->|Hk].
    + split; [discriminate | intros Hn; exfalso; apply Hn; now left].
    + rewrite IH. tauto.
Qed.

Lemma get_In k v m : get k m = Some v -> In (k, v) m.
Proof.
  induction m as [|[k' v'] m IH]; simpl; [discriminate|].
  destruct (String.eqb_spec k' k) as [->|Hk].
  - intros [= ->]. now left.
  - intros Hg. right. now apply IH.
Qed.

Lemma In_get k v m : NoDup (keys m) -> In (k, v) m -> get k m = Some v.
Proof.
  induction m as [|[k' v'] m IH]; simpl; [intros _ []|].
  intros Hnd [[= -> ->] | Hin].
  - now rewrite String.eqb_refl.
  - inversion Hnd as [|? ? Hnot Hnd']; subst.
    destruct (String.eqb_spec k' k) as [->|Hk].
    + exfalso. apply Hnot. change k with (fst (k, v)). now apply in_map.
    + now apply IH.
Qed.

(** [set] keeps the place of a key that is present and appends a new one. *)
Lemma keys_set k v m :
  keys (set k v m) = if has k m then keys m else keys m ++ [k].
Proof.
  unfold has. induction m as [|[k' v'] m IH]; simpl; [reflexivity|].
  destruct (String.eqb_spec k' k) as [->|Hk]; simpl; [reflexivity|].
  rewrite IH. now destruct (get k m).
Qed.

Lemma NoDup_keys_set k v m : NoDup (keys m) -> NoDup (keys (set k v m)).
Proof.
  intros Hnd. rewrite keys_set. unfold has.
  destruct (get k m) eqn:Eg; [assumption|].
  apply get_None in Eg.
  apply NoDup_incl_NoDup with (l := k :: keys m).
  - now constructor.
  - rewrite length_app; simpl; lia.
  - intros x Hx. apply in_or_app. simpl in *. tauto.
Qed.



End Facts.

(** *** Folds that group by key

    Both the category histogram and the time series fold their input into
    a map: an element with a new key starts an entry, an element with a
    known key updates it. *)

Section Grouping.

Context {X V : Type}.
Variable key : X -> option string.
Variable start : X -> V.
Variable update : V -> X -> V.

Definition upsert (m : t V) (x : X) : t V :=
  match key x with
  | None => m
  | Some k =>
      match get k m with
      | Some v => set k (update v x) m
      | None => set k (start x) m
      end
  end.

Definition has_key (k : string) (x : X) : bool :=
  match key x with Some k' => String.eqb k' k | None => false end.

(** The elements with key [k], in their order. *)
Definition group (k : string) (l : list X) : list X := filter (has_key k) l.

(** What the map holds for [k] once it has folded [l]. *)
Definition summary (k : string) (l : list X) : option V :=
  match group k l with
  | [] => None
  | x :: rest => Some (fold_left update rest (start x))
  end.

Lemma summary_snoc k l x :
  summary k (l ++ [x]) =
  if has_key k x
  then match summary k l with
       | Some v => Some (update v x)
       | None => Some (start x)
       end
  else summary k l.
Proof.
  unfold summary, group. rewrite filter_app. simpl.
  destruct (has_key k x).
  - destruct (filter (has_key k) l) as [|y rest]; simpl; [reflexivity|].
    now rewrite fold_left_app.
  - now rewrite app_nil_r.
Qed.

Lemma get_upsert m l x :
  (forall k, get k m = summary k l) ->
  forall k, get k (upsert m x) = summary k (l ++ [x]).
Proof.
  intros Hm k. rewrite summary_snoc. unfold upsert, has_key.
  destruct (key x) as [k'|]; [|apply Hm].
  destruct (String.eqb_spec k' k) as [->|Hne].
  - rewrite <- Hm. destruct (get k m); apply get_set_same.
  - rewrite <- Hm. destruct (get k' m); now apply get_set_other.
Qed.

Lemma get_fold_upsert_from m l0 l :
  (forall k, get k m = summary k l0) ->
  forall k, get k (fold_left upsert l m) = summary k (l0 ++ l).
Proof.
  revert m l0; induction l as [|x l IH]; intros m l0 Hm k; simpl.
  - rewrite app_nil_r. apply Hm.
  - replace (l0 ++ x :: l) with ((l0 ++ [x]) ++ l) by now rewrite <- app_assoc.
    apply IH. now apply get_upsert.
Qed.

(** The entry of [k] after the fold is the summary of the elements with
    key [k]. *)
Lemma get_fold_upsert l k : get k (fold_left upsert l []) = summary k l.
Proof. now apply (get_fold_upsert_from [] [] l). Qed.

Lemma NoDup_keys_upsert m x : NoDup (keys m) -> NoDup (keys (upsert m x)).
Proof.
  intros Hnd. unfold upsert. destruct (key x) as [k|]; [|assumption].
  destruct (get k m); now apply NoDup_keys_set.
Qed.

(** One entry per key. *)
Lemma NoDup_keys_fold_upsert l : NoDup (keys (fold_left upsert l [])).
Proof.
  assert (Hgen : forall m, NoDup (keys m) -> NoDup (keys (fold_left upsert l m))).
  { induction l as [|x l IH]; intros m Hm; simpl; [assumption|].
    apply IH. now apply NoDup_keys_upsert. }
  apply Hgen. constructor.
Qed.

(** The keys stand in the order of their first occurrence. *)
Definition first_occurrences (l : list X) : list string :=
  fold_left (fun seen x =>
               match key x with
               | Some k => if existsb (String.eqb k) seen then seen else seen ++ [k]
               | None => seen
               end) l [].

Lemma has_existsb k (m : t V) : has k m = existsb (String.eqb k) (keys m).
Proof.
  unfold has. induction m as [|[k' v'] m IH]; simpl; [reflexivity|].
  rewrite (String.eqb_sym k k').
  destruct (String.eqb k' k); simpl; [reflexivity | exact IH].
Qed.

Lemma keys_upsert m x :
  keys (upsert m x) =
  match key x with
  | Some k => if existsb (String.eqb k) (keys m) then keys m else keys m ++ [k]
  | None => keys m
  end.
Proof.
  unfold upsert. destruct (key x) as [k|]; [|reflexivity].
  rewrite <- has_existsb. unfold has.
  destruct (get k m) eqn:Eg; rewrite keys_set; unfold has; now rewrite Eg.
Qed.

Lemma keys_fold_upsert l : keys (fold_left upsert l []) = first_occurrences l.
Proof.
  unfold first_occurrences.
  assert (Hgen : forall m,
             keys (fold_left upsert l m)
             = fold_left (fun seen x =>
                            match key x with
                            | Some k => if existsb (String.eqb k) seen then seen
                                        else seen ++ [k]
                            | None => seen
                            end) l (keys m)).
  { induction l as [|x l IH]; intros m; simpl; [reflexivity|].
    now rewrite IH, keys_upsert. }
  apply (Hgen []).
Qed.

End Grouping.

End JSMapFacts.

(** ** Numbers *)

Module NumberFacts.

Lemma fl_proper `{JSNumber} (x y : Q) : (x == y)%Q -> (fl x == fl y)%Q.
Proof.
  intros E. apply Qle_antisym; apply fl_monotone; rewrite E; apply Qle_refl.
Qed.

Lemma fl_Z `{JSNumber} (x : Q) (z : Z) :
  Z.abs z <= 2 ^ 53 -> (x == inject_Z z)%Q -> (fl x == inject_Z z)%Q.
Proof. intros Hz E. rewrite (fl_proper _ _ E). now apply fl_integer. Qed.

Lemma fl_nonneg `{JSNumber} (x : Q) : (0 <= x)%Q -> (0 <= fl x)%Q.
Proof.
  intros Hx. rewrite <- (fl_integer 0) by (simpl; lia). now apply fl_monotone.
Qed.

Lemma fl_le_Z `{JSNumber} (x : Q) (z : Z) :
  Z.abs z <= 2 ^ 53 -> (x <= inject_Z z)%Q -> (fl x <= inject_Z z)%Q.
Proof. intros Hz Hx. rewrite <- (fl_integer z) by assumption. now apply fl_monotone. Qed.

Lemma Math_round_proper (x y : Q) : (x == y)%Q -> Math_round x = Math_round y.
Proof. intros E. unfold Math_round. now rewrite E. Qed.

Lemma Math_round_Z (z : Z) : Math_round (inject_Z z) = z.
Proof.
  unfold Math_round, Qfloor, inject_Z, Qplus; simpl.
  symmetry. apply Z.div_unique with (r := 1); lia.
Qed.

Lemma Math_round_le (x y : Q) : (x <= y)%Q -> Math_round x <= Math_round y.
Proof.
  intros Hxy. unfold Math_round. apply Qfloor_resp_le.
  now apply Qplus_le_l.
Qed.

Lemma Math_round_nonneg (x : Q) : (0 <= x)%Q -> 0 <= Math_round x.
Proof. intros Hx. rewrite <- (Math_round_Z 0). now apply Math_round_le. Qed.

(** The rounding of the specification: to the nearest integer, a half
    going away from zero. *)
Definition round_half_away (x : Q) : Z :=
  if Qle_bool 0 x then Qfloor (x + (1 # 2))%Q else - Qfloor (- x + (1 # 2))%Q.

Lemma Math_round_half_away (x : Q) : (0 <= x)%Q -> Math_round x = round_half_away x.
Proof.
  intros Hx. unfold round_half_away.
  apply Qle_bool_iff in Hx. now rewrite Hx.
Qed.

(** Where the two roundings part: a negative half. *)
Example Math_round_negative_half :
  Math_round (- (5 # 2)) = -2 /\ round_half_away (- (5 # 2)) = -3.
Proof. split; reflexivity. Qed.

End NumberFacts.

(** ** The rounding of binary64 *)

Module Binary64Facts.
Import Binary64.
Local Open Scope Q_scope.

Lemma pow2_pos (e : Z) : 0 < 2 ^ e.
Proof. apply Qpower_0_lt. reflexivity. Qed.

Lemma pow2_add (a b : Z) : 2 ^ (a + b) == 2 ^ a * 2 ^ b.
Proof. apply Qpower_plus. discriminate. Qed.

Lemma pow2_le (a b : Z) : (a <= b)%Z -> 2 ^ a <= 2 ^ b.
Proof. intros Hab. apply Qpower_le_compat_l; [assumption | discriminate]. Qed.

Lemma pow2_Z (n : Z) : (0 <= n)%Z -> 2 ^ n == inject_Z (2 ^ n).
Proof. intros Hn. symmetry. exact (Zpower_Qpower 2 n Hn). Qed.

Lemma pow2_split (a b : Z) : 2 ^ a == 2 ^ (a - b) * 2 ^ b.
Proof. rewrite <- pow2_add. now replace (a - b + b)%Z with a by lia. Qed.

Lemma scale_le (x y : Q) (e : Z) : x <= y -> x / 2 ^ e <= y / 2 ^ e.
Proof.
  intros Hxy. unfold Qdiv. apply Qmult_le_compat_r; [assumption|].
  apply Qlt_le_weak, Qinv_lt_0_compat, pow2_pos.
Qed.

Lemma scale_pow2 (a e : Z) : 2 ^ a / 2 ^ e == 2 ^ (a - e).
Proof.
  rewrite (pow2_split a e). field.
  intros E. pose proof (pow2_pos e) as Hp. rewrite E in Hp. discriminate.
Qed.

Lemma unscale (x : Q) (e : Z) : x / 2 ^ e * 2 ^ e == x.
Proof.
  field. intros E. pose proof (pow2_pos e) as Hp. rewrite E in Hp. discriminate.
Qed.

(** *** The binade of a positive rational *)

Lemma magnitude_spec (x : Q) :
  0 < x -> 2 ^ (magnitude x - 1) <= x /\ x < 2 ^ magnitude x.
Proof.
  intros Hx. unfold magnitude.
  destruct x as [n d]. cbn [Qnum Qden].
  assert (Hn : (0 < n)%Z) by (unfold Qlt in Hx; simpl in Hx; lia).
  set (a := Z.log2 n). set (b := Z.log2 (Zpos d)).
  assert (Ha : (0 <= a)%Z) by apply Z.log2_nonneg.
  assert (Hb : (0 <= b)%Z) by apply Z.log2_nonneg.
  destruct (Z.log2_spec n Hn) as [Hn1 Hn2]. fold a in Hn1, Hn2.
  destruct (Z.log2_spec (Zpos d) eq_refl) as [Hd1 Hd2]. fold b in Hd1, Hd2.
  assert (Ex : (n # d) * inject_Z (Zpos d) == inject_Z n).
  { unfold Qeq, Qmult, inject_Z; simpl. ring_simplify. 
    rewrite Pos.mul_1_r. ring. }
  assert (Qn1 : 2 ^ a <= inject_Z n) by (rewrite pow2_Z by assumption; now rewrite <- Zle_Qle).
  assert (Qn2 : inject_Z n < 2 ^ (a + 1))
    by (rewrite pow2_Z by lia; now rewrite <- Zlt_Qlt).
  assert (Qd1 : 2 ^ b <= inject_Z (Zpos d))
    by (rewrite pow2_Z by assumption; now rewrite <- Zle_Qle).
  assert (Qd2 : inject_Z (Zpos d) < 2 ^ (b + 1))
    by (rewrite pow2_Z by lia; now rewrite <- Zlt_Qlt).
  assert (Hup : (n # d) < 2 ^ (a - b + 1)).
  { apply (Qmult_lt_r _ _ (2 ^ b) (pow2_pos b)).
    rewrite <- pow2_add. replace (a - b + 1 + b)%Z with (a + 1)%Z by lia.
    apply Qle_lt_trans with (inject_Z n); [|assumption].
    rewrite <- Ex. apply Qmult_le_l; assumption. }
  assert (Hlo : 2 ^ (a - b - 1) < (n # d)).
  { apply (Qmult_lt_r _ _ (2 ^ (b + 1)) (pow2_pos (b + 1))).
    rewrite <- pow2_add. replace (a - b - 1 + (b + 1))%Z with a by lia.
    apply Qle_lt_trans with (inject_Z n); [assumption|].
    rewrite <- Ex. apply Qmult_lt_l; assumption. }
  destruct (Qle_bool (2 ^ (a - b)) (n # d)) eqn:E.
  - apply Qle_bool_iff in E. replace (a - b + 1 - 1)%Z with (a - b)%Z by lia.
    split; assumption.
  - split; [now apply Qlt_le_weak|].
    apply Qnot_le_lt. intros Hle. apply Qle_bool_iff in Hle. congruence.
Qed.

Lemma magnitude_le (x y : Q) : 0 < x -> x <= y -> (magnitude x <= magnitude y)%Z.
Proof.
  intros Hx Hxy.
  assert (Hy : 0 < y) by (eapply Qlt_le_trans; eassumption).
  destruct (magnitude_spec x Hx) as [Hx1 _].
  destruct (magnitude_spec y Hy) as [_ Hy2].
  destruct (Z.le_gt_cases (magnitude x) (magnitude y)) as [|Hgt]; [assumption|].
  exfalso. apply (Qlt_irrefl y).
  apply Qlt_le_trans with (2 ^ magnitude y); [assumption|].
  apply Qle_trans with (2 ^ (magnitude x - 1)); [apply pow2_le; lia|].
  now apply Qle_trans with x.
Qed.

(** *** Rounding to an integer, a half going to the even side *)

Lemma round_half_even_floor (x : Q) :
  (Qfloor x <= round_half_even x <= Qfloor x + 1)%Z.
Proof.
  unfold round_half_even.
  destruct (x - inject_Z (Qfloor x) ?= 1 # 2); [destruct (Z.even (Qfloor x))| |]; lia.
Qed.

Lemma round_half_even_ge (x : Q) (z : Z) : inject_Z z <= x -> (z <= round_half_even x)%Z.
Proof.
  intros Hz. apply Qfloor_resp_le in Hz. rewrite Qfloor_Z in Hz.
  pose proof (round_half_even_floor x). lia.
Qed.

Lemma round_half_even_le (x : Q) (z : Z) : x <= inject_Z z -> (round_half_even x <= z)%Z.
Proof.
  intros Hz.
  pose proof (round_half_even_floor x) as Hf.
  pose proof (Qfloor_resp_le _ _ Hz) as Hfz. rewrite Qfloor_Z in Hfz.
  destruct (Z.eq_dec (Qfloor x) z) as [E|]; [|lia].
  unfold round_half_even. rewrite E.
  destruct (Qcompare_spec (x - inject_Z z) (1 # 2)) as [Hc|Hc|Hc]; try lia; exfalso; lra.
Qed.

Lemma round_half_even_mono (x y : Q) : x <= y -> (round_half_even x <= round_half_even y)%Z.
Proof.
  intros Hxy.
  pose proof (Qfloor_resp_le _ _ Hxy) as Hf.
  pose proof (round_half_even_floor x) as Hx.
  pose proof (round_half_even_floor y) as Hy.
  destruct (Z.eq_dec (Qfloor x) (Qfloor y)) as [E|]; [|lia].
  unfold round_half_even. rewrite E.
  destruct (Qcompare_spec (x - inject_Z (Qfloor y)) (1 # 2)),
           (Qcompare_spec (y - inject_Z (Qfloor y)) (1 # 2));
    try destruct (Z.even (Qfloor y)); try lia; exfalso; lra.
Qed.

Lemma round_half_even_Z (x : Q) (z : Z) : x == inject_Z z -> round_half_even x = z.
Proof.
  intros E. apply Z.le_antisymm.
  - apply round_half_even_le. rewrite E. apply Qle_refl.
  - apply round_half_even_ge. rewrite E. apply Qle_refl.
Qed.

(** *** Rounding a positive rational *)

Lemma round_positive_le (x : Q) (t : Z) :
  0 < x -> (magnitude x <= t)%Z -> (ulp_exponent x <= t)%Z -> round_positive x <= 2 ^ t.
Proof.
  intros Hx Hm He. unfold round_positive.
  set (e := ulp_exponent x) in *.
  rewrite (pow2_split t e).
  apply Qmult_le_compat_r; [|apply Qlt_le_weak, pow2_pos].
  rewrite (pow2_Z (t - e)) by lia. rewrite <- Zle_Qle.
  apply round_half_even_le. rewrite <- (pow2_Z (t - e)) by lia.
  rewrite <- scale_pow2. apply scale_le.
  destruct (magnitude_spec x Hx) as [_ Hlt].
  apply Qlt_le_weak. eapply Qlt_le_trans; [eassumption|]. now apply pow2_le.
Qed.

Lemma round_positive_ge (x : Q) :
  0 < x -> ulp_exponent x = (magnitude x - 53)%Z -> 2 ^ (magnitude x - 1) <= round_positive x.
Proof.
  intros Hx He. unfold round_positive. rewrite He.
  rewrite (pow2_split (magnitude x - 1) (magnitude x - 53)).
  apply Qmult_le_compat_r; [|apply Qlt_le_weak, pow2_pos].
  replace (magnitude x - 1 - (magnitude x - 53))%Z with 52%Z by lia.
  rewrite (pow2_Z 52) by lia. rewrite <- Zle_Qle.
  apply round_half_even_ge. rewrite <- (pow2_Z 52) by lia.
  replace 52%Z with (magnitude x - 1 - (magnitude x - 53))%Z at 1 by lia.
  rewrite <- scale_pow2. apply scale_le.
  now destruct (magnitude_spec x Hx).
Qed.

Lemma round_positive_nonneg (x : Q) : 0 < x -> 0 <= round_positive x.
Proof.
  intros Hx. unfold round_positive.
  apply Qmult_le_0_compat; [|apply Qlt_le_weak, pow2_pos].
  change 0 with (inject_Z 0). rewrite <- Zle_Qle.
  apply round_half_even_ge. change (inject_Z 0) with 0.
  apply Qle_shift_div_l; [apply pow2_pos|]. rewrite Qmult_0_l. now apply Qlt_le_weak.
Qed.

Lemma round_positive_mono (x y : Q) : 0 < x -> x <= y -> round_positive x <= round_positive y.
Proof.
  intros Hx Hxy.
  assert (Hy : 0 < y) by (eapply Qlt_le_trans; eassumption).
  pose proof (magnitude_le x y Hx Hxy) as Hm.
  destruct (Z.eq_dec (ulp_exponent x) (ulp_exponent y)) as [E|Hne].
  - unfold round_positive. rewrite E.
    apply Qmult_le_compat_r; [|apply Qlt_le_weak, pow2_pos].
    rewrite <- Zle_Qle. apply round_half_even_mono. now apply scale_le.
  - assert (Hlt : (ulp_exponent x < ulp_exponent y)%Z) by (unfold ulp_exponent in *; lia).
    assert (Ey : ulp_exponent y = (magnitude y - 53)%Z) by (unfold ulp_exponent in *; lia).
    apply Qle_trans with (2 ^ (magnitude y - 1)).
    + apply round_positive_le; [assumption | unfold ulp_exponent in *; lia | lia].
    + now apply round_positive_ge.
Qed.

(** *** The two laws *)

Lemma Qnum_pos (x : Q) : (0 < Qnum x)%Z <-> 0 < x.
Proof. destruct x as [n d]. unfold Qlt; simpl. lia. Qed.

Lemma Qnum_neg (x : Q) : (Qnum x < 0)%Z <-> 0 < - x.
Proof. destruct x as [n d]. unfold Qlt; simpl. lia. Qed.

Lemma Qnum_zero (x : Q) : Qnum x = 0%Z <-> x == 0.
Proof. destruct x as [n d]. unfold Qeq; simpl. lia. Qed.

Lemma round_sign (x : Q) :
  (x == 0 /\ round x = 0)
  \/ (0 < x /\ round x = round_positive x)
  \/ (0 < - x /\ round x = - round_positive (- x)).
Proof.
  unfold round. destruct (Qnum x) as [|p|p] eqn:E.
  - left. split; [now apply Qnum_zero | reflexivity].
  - right; left. split; [apply Qnum_pos; lia | reflexivity].
  - right; right. split; [apply Qnum_neg; lia | reflexivity].
Qed.

Theorem round_monotone (x y : Q) : x <= y -> round x <= round y.
Proof.
  intros Hxy.
  destruct (round_sign x) as [[Hx ->] | [[Hx ->] | [Hx ->]]],
           (round_sign y) as [[Hy ->] | [[Hy ->] | [Hy ->]]];
    try (exfalso; lra).
  - apply Qle_refl.
  - now apply round_positive_nonneg.
  - now apply round_positive_mono.
  - pose proof (round_positive_nonneg _ Hx). lra.
  - pose proof (round_positive_nonneg _ Hx). pose proof (round_positive_nonneg _ Hy). lra.
  - apply Qopp_le_compat. apply round_positive_mono; [assumption | lra].
Qed.

Lemma round_positive_Z (z : Z) :
  (0 < z <= 2 ^ 53)%Z -> round_positive (inject_Z z) == inject_Z z.
Proof.
  intros [Hz1 Hz2].
  assert (Hx : 0 < inject_Z z) by (unfold Qlt; simpl; lia).
  destruct (magnitude_spec _ Hx) as [Hlo _].
  assert (Hm : (magnitude (inject_Z z) <= 54)%Z).
  { destruct (Z.le_gt_cases (magnitude (inject_Z z)) 54) as [|Hgt]; [assumption|].
    exfalso. apply (Qlt_irrefl (2 ^ 54)).
    apply Qle_lt_trans with (inject_Z z).
    - eapply Qle_trans; [|exact Hlo]. apply pow2_le. lia.
    - rewrite Zle_Qle in Hz2. eapply Qle_lt_trans; [exact Hz2|]. reflexivity. }
  unfold round_positive.
  set (e := ulp_exponent (inject_Z z)).
  assert (He : (e <= 1)%Z) by (unfold e, ulp_exponent; lia).
  assert (Hw : exists w : Z, inject_Z z / 2 ^ e == inject_Z w).
  { destruct (Z.le_gt_cases e 0) as [Hle|Hgt].
    - exists (z * 2 ^ (- e))%Z. rewrite inject_Z_mult, <- pow2_Z by lia.
      rewrite <- (scale_pow2 0 e). simpl (2 ^ 0). field.
      intros E. pose proof (pow2_pos e) as Hp. rewrite E in Hp. discriminate.
    - assert (e = 1%Z) by lia.
      assert (Em : magnitude (inject_Z z) = 54%Z) by (unfold e, ulp_exponent in *; lia).
      rewrite Em in Hlo. simpl (54 - 1)%Z in Hlo.
      assert (z = 2 ^ 53)%Z.
      { apply Z.le_antisymm; [assumption|]. rewrite Zle_Qle.
        eapply Qle_trans; [|exact Hlo]. rewrite pow2_Z by lia. apply Qle_refl. }
      subst z. exists (2 ^ 52)%Z. replace e with 1%Z by lia. reflexivity. }
  destruct Hw as [w Hw].
  rewrite (round_half_even_Z _ _ Hw), <- Hw. apply unscale.
Qed.

Theorem round_integer (z : Z) : (Z.abs z <= 2 ^ 53)%Z -> round (inject_Z z) == inject_Z z.
Proof.
  intros Hz. destruct z as [|p|p]; unfold round; cbn [Qnum inject_Z].
  - reflexivity.
  - apply (round_positive_Z (Zpos p)). lia.
  - change (- (Zneg p # 1)) with (inject_Z (Zpos p)).
    rewrite (round_positive_Z (Zpos p)) by lia. reflexivity.
Qed.

(** Binary64 is a number format of the class. *)
#[export] Instance numbers : JSNumber := {|
  fl := round;
  fl_monotone := round_monotone;
  fl_integer := round_integer
|}.

(** 23 of 40: the quotient 0.575 is not a binary64 number, and one
    hundred times its rounding falls below 57.5. *)
Example fifty_seven_percent :
  Math_round (fl (fl (inject_Z 23 / inject_Z 40) * 100)) = 57%Z
  /\ Math_round (inject_Z 23 / inject_Z 40 * 100) = 58%Z.
Proof. split; vm_compute; reflexivity. Qed.

End Binary64Facts.

(** ** The analytics snapshot *)

Module AnalyticsFacts.
Import Analytics.

(** *** The window and its buckets *)

Section Window.

Context `{JSDate}.

(** The key of the bucket of the day of [d], and an empty bucket. *)
Definition day_key (d : Z) : string := date_part (toISOString d).

Definition zero_day (k : string) : Day.t :=
  {| Day.date := k; Day.completed := 0; Day.total := 0 |}.


(** The instants the loop of [fill_days] passes, [fuel] bounding their
    number: [d], then one calendar day later at a time, as long as the
    instant is not after [endDate]. *)
Fixpoint loop_days (fuel : nat) (d endDate : Z) : list Z :=
  match fuel with
  | O => []
  | S fuel' => if d <=? endDate then d :: loop_days fuel' (plusDays d 1) endDate else []
  end.

(** The days of the window: the instants the loop passes from
    [startDate]. *)
Definition window_days (startDate endDate : Z) : list Z :=
  loop_days (iterations_bound startDate endDate) startDate endDate.


Definition set_day (m : JSMap.t Day.t) (d : Z) : JSMap.t Day.t :=
  JSMap.set (day_key d) (zero_day (day_key d)) m.

Lemma MS_PER_HOUR_pos : 0 < MS_PER_HOUR.
Proof. reflexivity. Qed.

Lemma fill_days_fold n d endDate m :
  fill_days n d endDate m = fold_left set_day (loop_days n d endDate) m.
Proof.
  revert d m; induction n as [|n IH]; intros d m; [reflexivity|].
  cbn [fill_days loop_days]. destruct (d <=? endDate); [|reflexivity].
  cbn [fold_left]. apply IH.
Qed.

(** The loop is [set_day] folded over the days of the window. *)
Lemma empty_days_fold startDate endDate :
  empty_days startDate endDate = fold_left set_day (window_days startDate endDate) [].
Proof. apply fill_days_fold. Qed.




Section Steps.

(** A calendar day lasts an hour at least. *)
Hypothesis day_step : forall d, d + MS_PER_HOUR <= plusDays d 1.

(** The loop has ended by its own test: more iterations change nothing. *)
Lemma loop_days_enough n extra d endDate :
  endDate - d < Z.of_nat n * MS_PER_HOUR ->
  loop_days (n + extra) d endDate = loop_days n d endDate.
Proof.
  pose proof MS_PER_HOUR_pos as Hpos.
  revert d; induction n as [|n IH]; intros d Hlt.
  - assert (Hd : (d <=? endDate) = false) by (apply Z.leb_gt; lia).
    destruct extra; simpl; [reflexivity | now rewrite Hd].
  - simpl. destruct (d <=? endDate); [|reflexivity].
    f_equal. apply IH. specialize (day_step d). lia.
Qed.

Lemma iterations_bound_enough startDate endDate :
  endDate - startDate < Z.of_nat (iterations_bound startDate endDate) * MS_PER_HOUR.
Proof.
  unfold iterations_bound.
  pose proof MS_PER_HOUR_pos as Hpos.
  pose proof (Z.mul_succ_div_gt (endDate - startDate) MS_PER_HOUR Hpos) as Hq.
  destruct (Z.le_gt_cases 0 ((endDate - startDate) / MS_PER_HOUR + 1)) as [Hn|Hn].
  - rewrite Z2Nat.id by assumption. lia.
  - assert (Hneg : endDate - startDate < 0).
    { destruct (Z.le_gt_cases 0 (endDate - startDate)) as [Hge|]; [|lia].
      pose proof (Z.div_pos _ _ Hge Hpos). lia. }
    replace (Z.to_nat ((endDate - startDate) / MS_PER_HOUR + 1)) with O by lia.
    simpl. lia.
Qed.

Lemma empty_days_terminates startDate endDate extra :
  fill_days (iterations_bound startDate endDate + extra) startDate endDate []
  = empty_days startDate endDate.
Proof.
  unfold empty_days. rewrite !fill_days_fold.
  now rewrite loop_days_enough by apply iterations_bound_enough.
Qed.


End Steps.

Lemma get_set_days ds m k :
  JSMap.get k (fold_left set_day ds m)
  = if existsb (fun d => String.eqb (day_key d) k) ds
    then Some (zero_day k) else JSMap.get k m.
Proof.
  revert m; induction ds as [|d ds IH]; intros m; simpl; [reflexivity|].
  rewrite IH. unfold set_day.
  destruct (String.eqb_spec (day_key d) k) as [<-|Hne]; simpl.
  - rewrite JSMapFacts.get_set_same. now destruct (existsb _ ds).
  - now rewrite JSMapFacts.get_set_other.
Qed.


Lemma set_fresh {V : Type} k (v : V) m :
  ~ In k (JSMap.keys m) -> JSMap.set k v m = m ++ [(k, v)].
Proof.
  induction m as [|[k' v'] m IH]; simpl; [reflexivity|].
  intros Hn. destruct (String.eqb_spec k' k) as [->|Hne]; [tauto|].
  rewrite IH; tauto.
Qed.

(** When the days have different keys, the map holds one empty bucket
    for each, in their order. *)
Lemma set_days_distinct ds m :
  NoDup (JSMap.keys m ++ map day_key ds) ->
  fold_left set_day ds m = m ++ map (fun d => (day_key d, zero_day (day_key d))) ds.
Proof.
  revert m; induction ds as [|d ds IH]; intros m Hnd; simpl.
  - now rewrite app_nil_r.
  - unfold set_day at 2. rewrite set_fresh.
    + rewrite IH.
      * now rewrite <- app_assoc.
      * unfold JSMap.keys in *. rewrite map_app. simpl.
        now rewrite <- app_assoc.
    + intros Hin. simpl in Hnd. apply NoDup_remove_2 in Hnd.
      apply Hnd. apply in_or_app. now left.
Qed.

End Window.

Lemma slice_last_map {A B : Type} (f : A -> B) n (l : list A) :
  JS.slice_last n (map f l) = map f (JS.slice_last n l).
Proof. unfold JS.slice_last. now rewrite length_map, skipn_map. Qed.

Lemma slice_last_length {A : Type} n (l : list A) :
  length (JS.slice_last n l) = Nat.min n (length l).
Proof. unfold JS.slice_last. rewrite length_skipn. lia. Qed.

Lemma slice_last_Forall {A : Type} (P : A -> Prop) n (l : list A) :
  Forall P l -> Forall P (JS.slice_last n l).
Proof.
  unfold JS.slice_last. intros Hl. rewrite Forall_forall in *.
  intros x Hx. apply Hl. rewrite <- (firstn_skipn (length l - n) l).
  apply in_or_app. now right.
Qed.

(** *** Empty collections *)





(** With empty tables and selects that succeed, [fetchAnalytics] shows
    no error and stores the snapshot of the empty collections. *)
Lemma fetchAnalytics_empty_tables `{JSDate} `{JSNumber} db user now1 now2 now3 s :
  tasks_table db = [] -> time_entries_table db = [] ->
  tasksError db = false -> timeError db = false ->
  fetchAnalytics db user now1 now2 now3 s
  = ({| analytics := aggregate (Some []) (Some []) (plusDays now2 (-30)) now1
                       (plusDays now3 (-7));
        loading := false |}, false).
Proof.
  intros Ht He Et Ee. unfold fetchAnalytics, select_tasks, select_time_entries.
  now rewrite Ht, He, Et, Ee.
Qed.

(** *** The category histogram *)

Definition category_key (task : Task) : option string :=
  match category task with Some c => Some (Rows.name c) | None => None end.

Definition category_start (task : Task) : Slice.t :=
  match category task with
  | Some c => {| Slice.name := Rows.name c; Slice.value := 1; Slice.color := Rows.color c |}
  | None => {| Slice.name := ""; Slice.value := 0; Slice.color := "" |}
  end.

Definition category_update (slice : Slice.t) (_ : Task) : Slice.t :=
  {| Slice.name := Slice.name slice;
     Slice.value := Slice.value slice + 1;
     Slice.color := Slice.color slice |}.

Lemma count_category_upsert m task :
  count_category m task
  = JSMapFacts.upsert category_key category_start category_update m task.
Proof.
  unfold count_category, JSMapFacts.upsert, category_key, category_start.
  now destruct (category task).
Qed.

Lemma categoryData_of_upsert tasks :
  categoryData_of (Some tasks)
  = fold_left (JSMapFacts.upsert category_key category_start category_update) tasks [].
Proof.
  unfold categoryData_of. simpl or_empty. generalize (@nil (string * Slice.t)).
  induction tasks as [|t tasks IH]; intros m; simpl; [reflexivity|].
  now rewrite IH, count_category_upsert.
Qed.

Lemma fold_category_update rest slice :
  fold_left category_update rest slice
  = {| Slice.name := Slice.name slice;
       Slice.value := Slice.value slice + Z.of_nat (length rest);
       Slice.color := Slice.color slice |}.
Proof.
  revert slice; induction rest as [|t rest IH]; intros slice.
  - destruct slice; simpl. now rewrite Z.add_0_r.
  - cbn [fold_left length]. rewrite IH. cbn. f_equal. lia.
Qed.

(** The tasks whose category has the name [name], in their order. *)
Definition tasks_named (name : string) (tasks : list Task) : list Task :=
  filter (fun task => match category task with
                      | Some c => String.eqb (Rows.name c) name
                      | None => false
                      end) tasks.

Lemma tasks_named_group name tasks :
  tasks_named name tasks = JSMapFacts.group category_key name tasks.
Proof.
  unfold tasks_named, JSMapFacts.group. apply filter_ext. intros t.
  unfold JSMapFacts.has_key, category_key. now destruct (category t).
Qed.

(** The entry of the histogram for a name. *)
Lemma get_categoryData tasks name :
  JSMap.get name (categoryData_of (Some tasks))
  = match tasks_named name tasks with
    | [] => None
    | first :: rest =>
        Some {| Slice.name := name;
                Slice.value := Z.of_nat (length (first :: rest));
                Slice.color := match category first with
                               | Some c => Rows.color c
                               | None => ""
                               end |}
    end.
Proof.
  rewrite categoryData_of_upsert, JSMapFacts.get_fold_upsert.
  unfold JSMapFacts.summary. rewrite <- tasks_named_group.
  destruct (tasks_named name tasks) as [|first rest] eqn:E; [reflexivity|].
  rewrite fold_category_update.
  assert (Hin : In first (tasks_named name tasks)) by (rewrite E; now left).
  apply filter_In in Hin. destruct Hin as [_ Hname].
  unfold category_start. destruct (category first) as [c|]; [|discriminate].
  apply String.eqb_eq in Hname. cbn [Slice.name Slice.value Slice.color].
  rewrite Hname. cbn [length]. rewrite Nat2Z.inj_succ.
  f_equal. f_equal. lia.
Qed.

Lemma names_are_keys tasks :
  map Slice.name (JSMap.values (categoryData_of (Some tasks)))
  = JSMap.keys (categoryData_of (Some tasks)).
Proof.
  pose proof (fun k v => @JSMapFacts.In_get _ k v (categoryData_of (Some tasks))) as Hget.
  assert (Hnd : NoDup (JSMap.keys (categoryData_of (Some tasks))))
    by (rewrite categoryData_of_upsert; apply JSMapFacts.NoDup_keys_fold_upsert).
  assert (Hall : forall k v, In (k, v) (categoryData_of (Some tasks)) -> Slice.name v = k).
  { intros k v Hin. specialize (Hget k v Hnd Hin). rewrite get_categoryData in Hget.
    destruct (tasks_named k tasks); [discriminate|]. now injection Hget as <-. }
  clear Hget Hnd. revert Hall.
  generalize (categoryData_of (Some tasks)). intros m.
  induction m as [|[k v] m IH]; intros Hall; simpl; [reflexivity|].
  rewrite (Hall k v) by now left.
  f_equal. apply IH. intros k' v' Hin. apply Hall. now right.
Qed.

(** C10. The tasks whose categories have one name make one entry of the
    histogram, under that name; its value is the number of fetched tasks
    with a category of that name, and its color is the color of the
    category of the first of them, whatever the colors of the later ones. *)
Theorem category_histogram `{JSDate} `{JSNumber}
  (tasks : list Task) (timeEntries : option (list TimeEntry))
  (startDate endDate weekStart : Z) :
  let histogram :=
    categoryBreakdown (aggregate (Some tasks) timeEntries startDate endDate weekStart) in
  NoDup (map Slice.name histogram)
  /\ (forall slice, In slice histogram ->
        exists first c rest,
          tasks_named (Slice.name slice) tasks = first :: rest
          /\ category first = Some c
          /\ Slice.value slice = Z.of_nat (length (first :: rest))
          /\ Slice.color slice = Rows.color c)
  /\ (forall task c, In task tasks -> category task = Some c ->
        exists slice, In slice histogram /\ Slice.name slice = Rows.name c).
Proof.
  intros histogram. unfold histogram, aggregate; cbn [categoryBreakdown].
  assert (Hnd : NoDup (JSMap.keys (categoryData_of (Some tasks))))
    by (rewrite categoryData_of_upsert; apply JSMapFacts.NoDup_keys_fold_upsert).
  repeat split.
  - now rewrite names_are_keys.
  - intros slice Hin. unfold JSMap.values in Hin.
    apply in_map_iff in Hin. destruct Hin as [[k v] [Ev Hin]]. simpl in Ev. subst v.
    apply JSMapFacts.In_get in Hin; [|assumption].
    rewrite get_categoryData in Hin.
    destruct (tasks_named k tasks) as [|first rest] eqn:E; [discriminate|].
    injection Hin as <-. cbn [Slice.name Slice.value Slice.color].
    assert (Hfirst : In first (tasks_named k tasks)) by (rewrite E; now left).
    apply filter_In in Hfirst. destruct Hfirst as [_ Hname].
    destruct (category first) as [c|] eqn:Ec; [|discriminate].
    exists first, c, rest. rewrite E. repeat split. exact Ec.
  - intros task c Hin Hc.
    pose proof (get_categoryData tasks (Rows.name c)) as Hget.
    assert (Hnamed : In task (tasks_named (Rows.name c) tasks)).
    { apply filter_In. split; [assumption|]. rewrite Hc. apply String.eqb_refl. }
    destruct (tasks_named (Rows.name c) tasks) as [|first rest]; [destruct Hnamed|].
    apply JSMapFacts.get_In in Hget.
    eexists. split.
    + unfold JSMap.values. apply in_map_iff. eexists. split; [|exact Hget]. reflexivity.
    + reflexivity.
Qed.

(** *** The time series *)

Section TimeSeries.

Context `{JSDate} `{JSNumber}.

Definition entry_key (entry : TimeEntry) : option string :=
  Some (date_part (start_time entry)).

Definition add_minutes (m : Z) (entry : TimeEntry) : Z := m + entry_minutes entry.

Lemma add_entry_upsert m entry :
  add_entry m entry = JSMapFacts.upsert entry_key entry_minutes add_minutes m entry.
Proof. reflexivity. Qed.

Lemma timeData_of_upsert entries :
  timeData_of (Some entries)
  = fold_left (JSMapFacts.upsert entry_key entry_minutes add_minutes) entries [].
Proof. reflexivity. Qed.

(** The entries that started on [date], in their order, and the sum of
    their rounded minutes. *)
Definition entries_on (date : string) (entries : list TimeEntry) : list TimeEntry :=
  filter (fun entry => String.eqb (date_part (start_time entry)) date) entries.

Definition total_minutes (entries : list TimeEntry) : Z :=
  fold_right (fun entry acc => entry_minutes entry + acc) 0 entries.

Lemma fold_add_minutes rest m :
  fold_left add_minutes rest m = m + total_minutes rest.
Proof.
  revert m; induction rest as [|e rest IH]; intros m; simpl; [lia|].
  rewrite IH. unfold add_minutes. lia.
Qed.

(** Each day that has entries holds the sum of the minutes of its
    entries, each entry rounded on its own; a day without entries has no
    point at all. *)
Lemma time_series_accumulates entries date :
  JSMap.get date (timeData_of (Some entries))
  = match entries_on date entries with
    | [] => None
    | first :: rest => Some (total_minutes (first :: rest))
    end.
Proof.
  rewrite timeData_of_upsert, JSMapFacts.get_fold_upsert.
  unfold JSMapFacts.summary, JSMapFacts.group, entries_on.
  unfold JSMapFacts.has_key, entry_key.
  destruct (filter _ entries) as [|first rest]; [reflexivity|].
  now rewrite fold_add_minutes.
Qed.

(** The points of the series stand in the order in which their dates
    first occur among the fetched entries, and the display keeps the last
    seven of them. *)
Lemma time_series_order entries :
  JSMap.keys (timeData_of (Some entries)) = JSMapFacts.first_occurrences entry_key entries.
Proof. rewrite timeData_of_upsert. apply JSMapFacts.keys_fold_upsert. Qed.

Lemma whole_minutes (seconds q : Z) :
  seconds = 60 * q -> Z.abs q <= 2 ^ 53 ->
  Math_round (fl (inject_Z seconds / 60)) = q.
Proof.
  intros -> Hq.
  rewrite (NumberFacts.Math_round_proper _ (inject_Z q)).
  - apply NumberFacts.Math_round_Z.
  - apply NumberFacts.fl_Z; [assumption|].
    rewrite inject_Z_mult. field.
Qed.

(** Two entries of 600 and 900 seconds, alone on their day, make 25
    minutes. *)
Lemma ten_and_fifteen_minutes entries date e1 e2 :
  entries_on date entries = [e1; e2] ->
  duration e1 = Some 600 -> duration e2 = Some 900 ->
  JSMap.get date (timeData_of (Some entries)) = Some 25.
Proof.
  intros Hon H1 H2. rewrite time_series_accumulates, Hon.
  unfold total_minutes, fold_right, entry_minutes, duration_or_0. rewrite H1, H2.
  rewrite (whole_minutes 600 10), (whole_minutes 900 15); try reflexivity; simpl; lia.
Qed.

(** The select keeps the closed entries only. *)
Lemma select_time_entries_closed db user startDate rows :
  select_time_entries db user startDate = query_data (Some rows) ->
  Forall (fun entry => duration entry <> None) rows.
Proof.
  unfold select_time_entries. destruct (timeError db); [discriminate|].
  intros [= <-]. apply Forall_forall. intros entry Hin.
  apply filter_In in Hin. destruct Hin as [_ Hp].
  destruct (duration entry); [discriminate|].
  now rewrite andb_false_r in Hp.
Qed.

End TimeSeries.

(** *** The weekly stats *)

Section Weekly.

Context `{JSDate} `{JSNumber}.

(** The last seven days, in the words of the specification: a row
    belongs to them when its time stamp is a date at or after
    [weekStart]. *)
Definition since (weekStart : Z) (stamp : string) : bool :=
  match Date_parse stamp with Some ms => weekStart <=? ms | None => false end.

Definition tasks_since (weekStart : Z) (tasks : option (list Task)) : list Task :=
  filter (fun task => since weekStart (created_at task)) (or_empty tasks).

Definition entries_since (weekStart : Z) (timeEntries : option (list TimeEntry))
  : list TimeEntry :=
  filter (fun entry => since weekStart (start_time entry)) (or_empty timeEntries).

(** The seconds tracked by some entries: the sum of their durations. *)
Definition total_seconds (entries : list TimeEntry) : Z :=
  fold_right (fun entry total => duration_or_0 entry + total) 0 entries.

Lemma weekTasks_since tasks weekStart :
  weekTasks_of tasks weekStart = tasks_since weekStart tasks.
Proof. destruct tasks; reflexivity. Qed.

Lemma weekTimeEntries_since timeEntries weekStart :
  weekTimeEntries_of timeEntries weekStart = entries_since weekStart timeEntries.
Proof. destruct timeEntries; reflexivity. Qed.

Lemma total_seconds_nonneg entries :
  Forall (fun entry => 0 <= duration_or_0 entry) entries -> 0 <= total_seconds entries.
Proof.
  induction 1 as [|e entries He _ IH]; simpl; lia.
Qed.

(** Below 2^53 the additions of the number format are exact: the sum the
    code computes is the sum of the durations. *)
Lemma sum_durations_exact entries :
  Forall (fun entry => 0 <= duration_or_0 entry) entries ->
  total_seconds entries <= 2 ^ 53 ->
  (sum_durations entries == inject_Z (total_seconds entries))%Q.
Proof.
  unfold sum_durations.
  assert (Hgen : forall (acc : Z) (q : Q),
            (q == inject_Z acc)%Q -> 0 <= acc ->
            Forall (fun entry => 0 <= duration_or_0 entry) entries ->
            acc + total_seconds entries <= 2 ^ 53 ->
            (fold_left (fun total entry => fl (total + inject_Z (duration_or_0 entry)))
               entries q == inject_Z (acc + total_seconds entries))%Q).
  { induction entries as [|e entries IH]; intros acc q Hq Hacc Hall Hle.
    - simpl. now rewrite Z.add_0_r.
    - inversion Hall as [|? ? He Hes]; subst.
      pose proof (total_seconds_nonneg entries Hes) as Hrest.
      cbn [fold_left total_seconds fold_right] in *.
      fold (total_seconds entries) in *.
      rewrite Z.add_assoc. apply IH; try assumption; try lia.
      apply NumberFacts.fl_Z.
      + rewrite Z.abs_eq by lia. lia.
      + now rewrite Hq, inject_Z_plus. }
  intros Hall Hle. apply (Hgen 0 0%Q); try assumption; [reflexivity | lia].
Qed.

Lemma Q_of_nonneg (z : Z) : 0 <= z -> (0 <= inject_Z z)%Q.
Proof. intros Hz. unfold Qle; simpl. lia. Qed.

Lemma Q_of_pos (z : Z) : 0 < z -> (0 < inject_Z z)%Q.
Proof. intros Hz. unfold Qlt; simpl. lia. Qed.

(** The average, before [Math.round]: not negative. *)
Lemma average_nonneg (seconds count : Z) :
  0 <= seconds -> 0 < count ->
  (0 <= fl (fl (inject_Z seconds / inject_Z count) / 60))%Q.
Proof.
  intros Hs Hc. apply NumberFacts.fl_nonneg.
  apply Qle_shift_div_l; [reflexivity|]. rewrite Qmult_0_l.
  apply NumberFacts.fl_nonneg.
  apply Qle_shift_div_l; [now apply Q_of_pos|]. rewrite Qmult_0_l.
  now apply Q_of_nonneg.
Qed.

(** The rate, before [Math.round]: between 0 and 100. *)
Lemma rate_bounds (count total : Z) :
  0 <= count <= total -> 0 < total ->
  (0 <= fl (fl (inject_Z count / inject_Z total) * 100) <= 100)%Q.
Proof.
  intros [Hc Hct] Ht. split.
  - apply NumberFacts.fl_nonneg. apply Qmult_le_0_compat; [|discriminate].
    apply NumberFacts.fl_nonneg.
    apply Qle_shift_div_l; [now apply Q_of_pos|]. rewrite Qmult_0_l.
    now apply Q_of_nonneg.
  - apply (NumberFacts.fl_le_Z _ 100); [simpl; lia|].
    setoid_replace (inject_Z 100) with (1 * 100)%Q by reflexivity.
    apply Qmult_le_compat_r; [|discriminate].
    apply (NumberFacts.fl_le_Z _ 1); [simpl; lia|].
    apply Qle_shift_div_r; [now apply Q_of_pos|]. rewrite Qmult_1_l.
    unfold Qle; simpl. lia.
Qed.

(** The average is the same for two sums that are the same number. *)
Lemma average_proper (x y c : Q) :
  (x == y)%Q -> Math_round (fl (fl (x / c) / 60)) = Math_round (fl (fl (y / c) / 60)).
Proof.
  intros E. apply NumberFacts.Math_round_proper, NumberFacts.fl_proper.
  rewrite (NumberFacts.fl_proper (x / c) (y / c)); [reflexivity | now rewrite E].
Qed.

(** C6, amended. Over the tasks created and the closed entries started
    in the last seven days, the durations being whole seconds, none
    negative, that add up to 2^53 at most: [averageTimePerTask] is the
    rounding of the number the program's arithmetic gives for
    [seconds / tasksCompleted / 60], each division rounded to the number
    format, and 0 when no task is completed; [completionRate] is the
    rounding of the number it gives for [tasksCompleted / total * 100],
    the division and the multiplication rounded each, and 0 when there is
    no task; neither is negative, and the rate is at most 100. *)
Theorem weekly_average_and_rate
  (tasks : option (list Task)) (timeEntries : option (list TimeEntry)) (weekStart : Z) :
  let weekTasks := tasks_since weekStart tasks in
  let weekEntries := entries_since weekStart timeEntries in
  let total := Z.of_nat (length weekTasks) in
  let count := Z.of_nat (length (filter Rows.completed weekTasks)) in
  let seconds := total_seconds weekEntries in
  Forall (fun entry => 0 <= duration_or_0 entry) weekEntries ->
  seconds <= 2 ^ 53 ->
  let stats := weeklyStats_of tasks timeEntries weekStart in
  tasksCompleted stats = count
  /\ averageTimePerTask stats
     = (if count =? 0 then 0
        else NumberFacts.round_half_away
               (fl (fl (inject_Z seconds / inject_Z count) / 60)))
  /\ completionRate stats
     = (if total =? 0 then 0
        else NumberFacts.round_half_away
               (fl (fl (inject_Z count / inject_Z total) * 100)))
  /\ 0 <= averageTimePerTask stats
  /\ 0 <= completionRate stats
  /\ (0 < total -> completionRate stats <= 100).
Proof.
  intros weekTasks weekEntries total count seconds Hdur Hbound stats.
  assert (Hs : 0 <= seconds) by (now apply total_seconds_nonneg).
  assert (Hcount : 0 <= count <= total).
  { unfold count, total. split; [lia|]. apply Nat2Z.inj_le, filter_length_le. }
  assert (Esum : (sum_durations weekEntries == inject_Z seconds)%Q)
    by (now apply sum_durations_exact).
  unfold stats, weeklyStats_of.
  rewrite weekTasks_since, weekTimeEntries_since.
  fold weekTasks. fold weekEntries. fold count.
  cbn [tasksCompleted averageTimePerTask completionRate].
  assert (Havg : forall x, (0 <= x)%Q ->
            Math_round x = NumberFacts.round_half_away x /\ 0 <= Math_round x).
  { intros x Hx. split; [now apply NumberFacts.Math_round_half_away
                         | now apply NumberFacts.Math_round_nonneg]. }
  assert (Eavg : (0 <? count) = negb (count =? 0))
    by (destruct (Z.ltb_spec 0 count), (Z.eqb_spec count 0); simpl; lia).
  assert (Erate : (0 <? length weekTasks)%nat = negb (total =? 0)).
  { unfold total. destruct (Nat.ltb_spec 0 (length weekTasks)),
      (Z.eqb_spec (Z.of_nat (length weekTasks)) 0); simpl; lia. }
  rewrite Eavg, Erate. fold total.
  destruct (Z.eqb_spec count 0) as [Ec|Ec], (Z.eqb_spec total 0) as [Et|Et];
    cbn [negb].
  - repeat split; try reflexivity; try discriminate; lia.
  - destruct (rate_bounds count total) as [Hlo Hhi]; [lia | lia |].
    destruct (Havg _ Hlo) as [E1 E2].
    repeat split; try reflexivity; try discriminate; try assumption.
    intros _. rewrite <- (NumberFacts.Math_round_Z 100).
    now apply NumberFacts.Math_round_le.
  - lia.
  - rewrite (average_proper _ _ (inject_Z count) Esum).
    destruct (rate_bounds count total) as [Hlo Hhi]; [lia | lia |].
    destruct (Havg _ Hlo) as [E1 E2].
    destruct (Havg _ (average_nonneg seconds count Hs ltac:(lia))) as [E3 E4].
    repeat split; try reflexivity; try assumption.
    intros _. rewrite <- (NumberFacts.Math_round_Z 100).
    now apply NumberFacts.Math_round_le.
Qed.

End Weekly.

(** *** The snapshot of a month: 2024-03-01 to 2024-03-31, read at noon *)

#[local] Existing Instance UTC.dates.
#[local] Existing Instance Binary64Facts.numbers.

Definition march_31 : Z := 1711886400000.
Definition march_1 : Z := march_31 - 30 * MS_PER_DAY.
Definition march_24 : Z := march_31 - 7 * MS_PER_DAY.



(** The date of [endDate] can be without a bucket.  A window from
    2024-03-01 at 23:00 to 2024-03-03 at 01:00 has the buckets of March 1
    and March 2 only: the third instant of the loop, March 3 at 23:00, is
    after its end. *)
Example end_day_without_bucket :
  JSMap.keys (dailyData_of None 1709334000000 1709427600000)
  = ["2024-03-01"; "2024-03-02"]%string
  /\ day_key 1709427600000 = "2024-03-03"%string.
Proof. split; vm_compute; reflexivity. Qed.

(** So it is when [fetchAnalytics] reads its second date a millisecond
    after the first: the window has thirty days, February 29 to March 29
    read at noon of March 30, and the series ends on the day before:
    a Friday, March 30 being a Saturday. *)
Example today_without_bucket :
  length (window_days (plusDays (1711800000000 + 1) (-30)) 1711800000000) = 30%nat
  /\ day_key 1711800000000 = "2024-03-30"%string
  /\ map Day.date
       (dailyCompletion
          (analytics
             (fst (fetchAnalytics
                     {| tasks_table := []; time_entries_table := [];
                        tasksError := false; timeError := false |}
                     "u1" 1711800000000 (1711800000000 + 1) (1711800000000 + 1)
                     initial))))
     = ["Sat"; "Sun"; "Mon"; "Tue"; "Wed"; "Thu"; "Fri"]%string.
Proof. repeat split; vm_compute; reflexivity. Qed.

(** A test for lists of strings without a repetition. *)
Fixpoint distinct (l : list string) : bool :=
  match l with
  | [] => true
  | k :: l' => negb (existsb (String.eqb k) l') && distinct l'
  end.

Lemma distinct_NoDup (l : list string) : distinct l = true -> NoDup l.
Proof.
  induction l as [|k l IH]; simpl; [constructor|].
  rewrite andb_true_iff, negb_true_iff. intros [Hk Hl].
  constructor; [|now apply IH].
  intros Hin. assert (Hex : existsb (String.eqb k) l = true); [|congruence].
  apply existsb_exists. exists k. split; [assumption | apply String.eqb_refl].
Qed.

(** The days of March have different date strings. *)
Example march_days_distinct : NoDup (map day_key (window_days march_1 march_31)).
Proof. apply distinct_NoDup. vm_compute. reflexivity. Qed.

(** Three entries of user u1: ten minutes on March 5, fifteen on March
    30, and one still open. *)
Definition march_entries : list TimeEntry :=
  [{| entry_id := "e1"; entry_user_id := "u1"; task_id := "t1";
      start_time := "2024-03-05T10:00:00Z";
      end_time := Some "2024-03-05T10:10:00Z"; duration := Some 600 |};
   {| entry_id := "e2"; entry_user_id := "u1"; task_id := "t1";
      start_time := "2024-03-30T09:00:00Z";
      end_time := Some "2024-03-30T09:15:00Z"; duration := Some 900 |};
   {| entry_id := "e3"; entry_user_id := "u1"; task_id := "t1";
      start_time := "2024-03-31T11:00:00Z";
      end_time := None; duration := None |}].

Definition march_database : Database :=
  {| tasks_table := []; time_entries_table := march_entries;
     tasksError := false; timeError := false |}.

(** C4: the displayed time series is not made of the last seven days of
    the window.  Read at noon of March 31 it shows March 5, a Tuesday 26
    days back, next to March 30, and no point for the five other days of
    the last week, for which the daily-completion series has a bucket. *)
Theorem time_series_shows_old_day :
  fetchAnalytics march_database "u1" march_31 march_31 march_31 initial
  = ({| analytics :=
          {| dailyCompletion :=
               [zero_day "Mon"; zero_day "Tue"; zero_day "Wed"; zero_day "Thu";
                zero_day "Fri"; zero_day "Sat"; zero_day "Sun"];
             categoryBreakdown := [];
             timeSpent := [{| Point.date := "Tue"; Point.minutes := 10 |};
                           {| Point.date := "Sat"; Point.minutes := 15 |}];
             weeklyStats := {| tasksCompleted := 0; timeTracked := 15;
                               averageTimePerTask := 0; completionRate := 0 |} |};
        loading := false |}, false).
Proof. vm_compute. reflexivity. Qed.

(** Forty tasks of the last week, 23 of them completed, and the entries
    of March. *)
Definition week_task (c : bool) : Task :=
  {| id := "t"; user_id := "u1"; title := "task"; description := None; completed := c;
     due_date := None; priority := "low"; estimated_time := None;
     created_at := "2024-03-30T08:00:00Z"; category := None |}.

Definition forty_tasks : list Task :=
  repeat (week_task true) 23 ++ repeat (week_task false) 17.

(** C6, as stated, fails: of the forty tasks of the week 23 are
    completed, which is 57.5 percent and rounds to 58; the page shows 57.
    The quotient 23/40 is no binary64 number, and one hundred times the
    number next to it is below 57.5. *)
Lemma rate_of_23_in_40 :
  length (tasks_since march_24 (Some forty_tasks)) = 40%nat
  /\ length (filter Rows.completed (tasks_since march_24 (Some forty_tasks))) = 23%nat
  /\ completionRate (weeklyStats_of (Some forty_tasks) (Some march_entries) march_24) = 57
  /\ NumberFacts.round_half_away (inject_Z 23 / inject_Z 40 * 100) = 58.
Proof. repeat split; vm_compute; reflexivity. Qed.

Lemma weekly_average_and_rate_witness :
  (let weekTasks := tasks_since march_24 (Some forty_tasks) in
   let weekEntries := entries_since march_24 (Some march_entries) in
   let total := Z.of_nat (length weekTasks) in
   let count := Z.of_nat (length (filter Rows.completed weekTasks)) in
   let seconds := total_seconds weekEntries in
   let stats := weeklyStats_of (Some forty_tasks) (Some march_entries) march_24 in
   tasksCompleted stats = count
   /\ averageTimePerTask stats
      = (if count =? 0 then 0
         else NumberFacts.round_half_away
                (fl (fl (inject_Z seconds / inject_Z count) / 60)))
   /\ completionRate stats
      = (if total =? 0 then 0
         else NumberFacts.round_half_away
                (fl (fl (inject_Z count / inject_Z total) * 100)))
   /\ 0 <= averageTimePerTask stats
   /\ 0 <= completionRate stats
   /\ (0 < total -> completionRate stats <= 100))
  /\ total_seconds (entries_since march_24 (Some march_entries)) = 900
  /\ weeklyStats_of (Some forty_tasks) (Some march_entries) march_24
     = {| tasksCompleted := 23; timeTracked := 15;
          averageTimePerTask := 1; completionRate := 57 |}.
Proof.
  split; [|split; vm_compute; reflexivity].
  apply (weekly_average_and_rate (Some forty_tasks) (Some march_entries) march_24).
  - vm_compute. repeat constructor; discriminate.
  - vm_compute. discriminate.
Defined.

(** The weekly stats of that week: 900 seconds over 23 tasks is less
    than a minute each, and 23 of 40 shows as 57 percent. *)
Example weekly_stats_of_march :
  weeklyStats_of (Some forty_tasks) (Some march_entries) march_24
  = {| tasksCompleted := 23; timeTracked := 15;
       averageTimePerTask := 1; completionRate := 57 |}.
Proof. vm_compute. reflexivity. Qed.

End AnalyticsFacts.

(* ================================================================== *)
(** * Further properties *)
(* ================================================================== *)

(** ** The task filter and the overdue mark *)

Module TasksMore.
Import Tasks TasksFacts.

Lemma filter_same {A : Type} (p : A -> bool) (l : list A) :
  filter p (filter p l) = filter p l.
Proof.
  rewrite filter_filter. apply filter_ext. intros x. now destruct (p x).
Qed.

(** X1. Filtering is idempotent: the filter applied to its own output,
    with the same search text and filters, returns that output. *)
Theorem filter_idempotent (tasks : list Task) q st pr :
  filtered (filtered tasks q st pr) q st pr = filtered tasks q st pr.
Proof. rewrite !filtered_keeps. apply filter_same. Qed.

Lemma keeps_status q st pr task :
  keeps q st pr task
  = keeps q status_all pr task
    && match st with
       | status_all => true
       | status_completed => completed task
       | status_pending => negb (completed task)
       end.
Proof.
  unfold keeps, status_pred.
  set (a := if JS.truthy (JS.trim q) then search_pred q task else true).
  set (c := match pr with priority_all => true | _ => priority_pred pr task end).
  destruct st, a, c, (completed task); reflexivity.
Qed.

Lemma length_filter_split {A : Type} (p c : A -> bool) (l : list A) :
  (length (filter (fun x => p x && c x) l)
   + length (filter (fun x => p x && negb (c x)) l)
   = length (filter p l))%nat.
Proof.
  induction l as [|x l IH]; simpl; [reflexivity|].
  destruct (p x), (c x); simpl; lia.
Qed.

(** X2. The status filter splits the list: under one search text and one
    priority filter, the tasks shown as completed and the tasks shown as
    pending are together as many as the tasks shown under "all", they are
    tasks of that list, and no task is shown under both. *)
Theorem status_filter_partition (tasks : list Task) q pr :
  (length (filtered tasks q status_completed pr)
   + length (filtered tasks q status_pending pr)
   = length (filtered tasks q status_all pr))%nat
  /\ (forall task,
        In task (filtered tasks q status_completed pr)
        <-> In task (filtered tasks q status_all pr) /\ completed task = true)
  /\ (forall task,
        In task (filtered tasks q status_pending pr)
        <-> In task (filtered tasks q status_all pr) /\ completed task = false).
Proof.
  rewrite !filtered_keeps. split; [|split].
  - rewrite <- (length_filter_split (keeps q status_all pr) completed).
    f_equal; f_equal; apply filter_ext; intros t; apply keeps_status.
  - intros task. rewrite !filter_In, keeps_status, andb_true_iff. tauto.
  - intros task. rewrite !filter_In, keeps_status, andb_true_iff, negb_true_iff. tauto.
Qed.

(** *** Blank search texts *)

Fixpoint blank (s : string) : bool :=
  match s with
  | EmptyString => true
  | String c s' => JS.is_whitespace c && blank s'
  end.

Lemma trimStart_blank (s : string) : JS.trimStart s = ""%string <-> blank s = true.
Proof.
  induction s as [|c s IH]; simpl; [tauto|].
  destruct (JS.is_whitespace c); simpl; [exact IH|]. split; discriminate.
Qed.

Lemma blank_snoc (l : list ascii) (c : ascii) :
  blank (string_of_list_ascii (l ++ [c]))
  = blank (string_of_list_ascii l) && JS.is_whitespace c.
Proof.
  induction l as [|a l IH]; simpl.
  - now rewrite andb_true_r.
  - rewrite IH. now rewrite andb_assoc.
Qed.

Lemma blank_rev (s : string) : blank (JS.rev_string s) = blank s.
Proof.
  unfold JS.rev_string. induction s as [|c s IH]; simpl; [reflexivity|].
  rewrite blank_snoc, IH. apply andb_comm.
Qed.

Lemma rev_string_empty (s : string) : JS.rev_string s = ""%string -> s = ""%string.
Proof.
  unfold JS.rev_string. destruct s as [|c s]; [reflexivity|]. simpl.
  destruct (rev (list_ascii_of_string s)); discriminate.
Qed.

Lemma trimStart_stays_not_blank (s : string) :
  blank s = false -> blank (JS.trimStart s) = false.
Proof.
  induction s as [|c s IH]; simpl; [discriminate|].
  destruct (JS.is_whitespace c) eqn:Ec; simpl; [exact IH|].
  now rewrite Ec.
Qed.

(** [trim] leaves nothing exactly of the texts made of white space. *)
Lemma trim_blank (s : string) : JS.truthy (JS.trim s) = negb (blank s).
Proof.
  unfold JS.trim, JS.trimEnd.
  destruct (blank s) eqn:Eb.
  - apply trimStart_blank in Eb. rewrite Eb. reflexivity.
  - apply trimStart_stays_not_blank in Eb.
    rewrite <- blank_rev in Eb. apply trimStart_stays_not_blank in Eb.
    rewrite <- blank_rev in Eb.
    destruct (JS.rev_string _); [discriminate | reflexivity].
Qed.

(** X3. A search text made of white space only (spaces, tabs, line
    breaks, no-break spaces) is no search: the filter returns what it
    returns for the empty search text. *)
Theorem blank_search_is_no_search (tasks : list Task) q st pr :
  blank q = true ->
  filtered tasks q st pr = filtered tasks "" st pr.
Proof.
  intros Hq. unfold filtered. rewrite !trim_blank, Hq. reflexivity.
Qed.

Lemma blank_search_is_no_search_witness :
  filtered [sample_task "1" "Plant MINT" None false None "high";
            sample_task "2" "Water" (Some "the  mint bed") true None "low"]
    "  " status_pending priority_high
  = filtered [sample_task "1" "Plant MINT" None false None "high";
              sample_task "2" "Water" (Some "the  mint bed") true None "low"]
      "" status_pending priority_high.
Proof.
  apply (blank_search_is_no_search
           [sample_task "1" "Plant MINT" None false None "high";
            sample_task "2" "Water" (Some "the  mint bed") true None "low"]
           "  " status_pending priority_high).
  reflexivity.
Defined.

Lemma is_whitespace_lower (c : ascii) :
  JS.is_whitespace (JS.lower_char c) = JS.is_whitespace c.
Proof.
  destruct c as [[|] [|] [|] [|] [|] [|] [|] [|]]; reflexivity.
Qed.

Lemma blank_lower (s : string) : blank (JS.toLowerCase s) = blank s.
Proof.
  induction s as [|c s IH]; simpl; [reflexivity|].
  now rewrite is_whitespace_lower, IH.
Qed.

(** X4. The search ignores the letter case of the search text: two
    search texts that differ in case only select the same tasks. *)
Theorem search_text_case_insensitive (tasks : list Task) q1 q2 st pr :
  JS.toLowerCase q1 = JS.toLowerCase q2 ->
  filtered tasks q1 st pr = filtered tasks q2 st pr.
Proof.
  intros Hq. rewrite !filtered_keeps. apply filter_ext. intros t.
  unfold keeps, search_pred. rewrite !trim_blank.
  rewrite <- (blank_lower q1), <- (blank_lower q2), Hq. reflexivity.
Qed.

Lemma search_text_case_insensitive_witness :
  filtered [sample_task "1" "Plant MINT" None false None "high";
            sample_task "2" "Water" (Some "the  mint bed") true None "low"]
    "Mint" status_all priority_all
  = filtered [sample_task "1" "Plant MINT" None false None "high";
              sample_task "2" "Water" (Some "the  mint bed") true None "low"]
      "mINT" status_all priority_all.
Proof.
  apply (search_text_case_insensitive
           [sample_task "1" "Plant MINT" None false None "high";
            sample_task "2" "Water" (Some "the  mint bed") true None "low"]
           "Mint" "mINT" status_all priority_all).
  reflexivity.
Defined.

(** X5. When the tasks that share a task's due-date string all have its
    completion status (in particular when no other task has that due
    date), the overdue mark of the task is its own: the date is past and
    the task is pending. *)
Theorem overdue_mark_own_status `{JSDate} (s : State) (now : Z) (task : Task) (d : string) :
  In task (tasks s) ->
  due_date task = Some d ->
  JS.truthy d = true ->
  (forall other, In other (tasks s) -> due_date other = Some d ->
                 completed other = completed task) ->
  overdue_indicator s now task = Some (date_lt d now && negb (completed task)).
Proof.
  intros Hin Hd Ht Hsame. unfold overdue_indicator, isOverdue. rewrite Hd, Ht.
  pose proof (find_first (same_due_date d) (tasks s)) as Hf.
  unfold same_due_date in Hf.
  destruct (JS.find _ (tasks s)) as [first|].
  - destruct Hf as [before [after [E [Hfirst _]]]].
    rewrite (Hsame first); [reflexivity | |].
    + rewrite E. apply in_or_app. right. now left.
    + now apply (same_due_date_spec d first).
  - specialize (Hf task Hin). rewrite Hd, String.eqb_refl in Hf. discriminate.
Qed.

Lemma overdue_mark_own_status_witness :
  overdue_indicator (H := UTC.dates)
    {| tasks := [sample_task "1" "Report" None true (Some "2024-03-01T09:00:00Z") "high";
                 sample_task "2" "Slides" None false (Some "2024-03-02T09:00:00Z") "low"];
       filteredTasks := []; searchQuery := ""; statusFilter := status_all;
       priorityFilter := priority_all |}
    1711886400000
    (sample_task "2" "Slides" None false (Some "2024-03-02T09:00:00Z") "low")
  = Some (date_lt (H := UTC.dates) "2024-03-02T09:00:00Z" 1711886400000
          && negb (completed
                     (sample_task "2" "Slides" None false
                        (Some "2024-03-02T09:00:00Z") "low"))).
Proof.
  apply (overdue_mark_own_status (H := UTC.dates)
           {| tasks := [sample_task "1" "Report" None true
                          (Some "2024-03-01T09:00:00Z") "high";
                        sample_task "2" "Slides" None false
                          (Some "2024-03-02T09:00:00Z") "low"];
              filteredTasks := []; searchQuery := ""; statusFilter := status_all;
              priorityFilter := priority_all |}
           1711886400000
           (sample_task "2" "Slides" None false (Some "2024-03-02T09:00:00Z") "low")
           "2024-03-02T09:00:00Z").
  - simpl. right. left. reflexivity.
  - reflexivity.
  - reflexivity.
  - simpl. intros other [<- | [<- | []]]; [discriminate | reflexivity].
Defined.

End TasksMore.

(** ** Percentages *)

Module PercentFacts.

Section Percent.

Context `{JSNumber}.

(** [Math.round((count / total) * 100)]. *)
Definition percent (count total : Z) : Z :=
  Math_round (fl (fl (inject_Z count / inject_Z total) * 100)).

Lemma percent_bounds (count total : Z) :
  0 <= count <= total -> 0 < total -> 0 <= percent count total <= 100.
Proof.
  intros Hc Ht. unfold percent.
  destruct (AnalyticsFacts.rate_bounds count total Hc Ht) as [Hlo Hhi]. split.
  - now apply NumberFacts.Math_round_nonneg.
  - rewrite <- (NumberFacts.Math_round_Z 100). now apply NumberFacts.Math_round_le.
Qed.

Lemma percent_all (total : Z) : 0 < total -> percent total total = 100.
Proof.
  intros Ht. unfold percent.
  rewrite (NumberFacts.Math_round_proper _ (inject_Z 100)).
  - apply NumberFacts.Math_round_Z.
  - apply NumberFacts.fl_Z; [simpl; lia|].
    rewrite (NumberFacts.fl_Z _ 1); [reflexivity | simpl; lia |].
    field. intros E. apply (inject_Z_injective total 0) in E. lia.
Qed.

Lemma percent_none (total : Z) : 0 < total -> percent 0 total = 0.
Proof.
  intros Ht. unfold percent.
  rewrite (NumberFacts.Math_round_proper _ (inject_Z 0)).
  - apply NumberFacts.Math_round_Z.
  - apply NumberFacts.fl_Z; [simpl; lia|].
    rewrite (NumberFacts.fl_Z _ 0); [reflexivity | simpl; lia |].
    field. intros E. apply (inject_Z_injective total 0) in E. lia.
Qed.

End Percent.

End PercentFacts.

(** ** The dashboard *)

Module DashboardMore.
Import Dashboard DashboardFacts.

Lemma length_filter_disjoint {A : Type} (p q : A -> bool) (l : list A) :
  (forall x, p x = true -> q x = false) ->
  (length (filter p l) + length (filter q l) <= length l)%nat.
Proof.
  intros Hpq. induction l as [|x l IH]; simpl; [lia|].
  destruct (p x) eqn:Ep.
  - rewrite (Hpq x Ep). simpl. lia.
  - destruct (q x); simpl; lia.
Qed.

Lemma due_today_not_overdue `{JSDate} today task :
  due_today today task = true -> overdue today task = false.
Proof.
  unfold due_today, overdue.
  destruct (due_date task) as [d|]; [|reflexivity].
  destruct (JS.truthy d); simpl; [|reflexivity].
  destruct (completed task); [reflexivity|].
  unfold date_ge, date_lt. destruct (Date_parse d) as [ms|]; [|reflexivity].
  rewrite andb_true_iff. intros [Hge _]. apply Z.leb_le in Hge. apply Z.ltb_ge. lia.
Qed.

Lemma completed_at_most_total `{JSDate} (tasksData : option (list Task)) (now : Z) :
  0 <= completedTasks (calculate_stats tasksData now)
    <= totalTasks (calculate_stats tasksData now).
Proof.
  unfold calculate_stats; cbn [totalTasks completedTasks].
  destruct tasksData as [l|]; simpl; [|lia].
  pose proof (filter_length_le completed l). lia.
Qed.

(** X6. The four numbers of the dashboard fit together: none is
    negative, the completed tasks are at most all tasks, and a task counts
    at most once among those due today and those overdue, and at most once
    among the completed and the overdue.  When the reply holds no data
    ([null]), and when it holds no row, all four are 0. *)
Theorem stats_fit_together `{JSDate} (tasksData : option (list Task)) (now : Z) :
  let stats := calculate_stats tasksData now in
  (0 <= completedTasks stats <= totalTasks stats
   /\ 0 <= todayTasks stats
   /\ 0 <= overdueTasks stats
   /\ todayTasks stats + overdueTasks stats <= totalTasks stats
   /\ completedTasks stats + overdueTasks stats <= totalTasks stats)
  /\ calculate_stats None now
     = {| totalTasks := 0; completedTasks := 0; todayTasks := 0; overdueTasks := 0 |}
  /\ calculate_stats (Some []) now
     = {| totalTasks := 0; completedTasks := 0; todayTasks := 0; overdueTasks := 0 |}.
Proof.
  split; [|split; reflexivity].
  unfold calculate_stats; cbn [totalTasks completedTasks todayTasks overdueTasks].
  destruct tasksData as [l|]; simpl; [|lia].
  pose proof (filter_length_le completed l).
  pose proof (length_filter_disjoint (due_today (startOfLocalDay now))
                (overdue (startOfLocalDay now)) l
                (due_today_not_overdue (startOfLocalDay now))).
  pose proof (length_filter_disjoint completed (overdue (startOfLocalDay now)) l
                (overdue_completed (startOfLocalDay now))).
  lia.
Qed.

(** X7. The completion rate drawn under the Completed card lies between
    0 and 100; it is 0 when there is no task or no completed task, and 100
    when every task is completed. *)
Theorem completion_percent_range `{JSDate} `{JSNumber}
  (tasksData : option (list Task)) (now : Z) :
  let stats := calculate_stats tasksData now in
  0 <= DashboardView.completion_percent stats <= 100
  /\ (totalTasks stats = 0 -> DashboardView.completion_percent stats = 0)
  /\ (completedTasks stats = 0 -> DashboardView.completion_percent stats = 0)
  /\ (0 < totalTasks stats -> completedTasks stats = totalTasks stats ->
      DashboardView.completion_percent stats = 100).
Proof.
  intros stats.
  pose proof (completed_at_most_total tasksData now) as Hc. fold stats in Hc.
  unfold DashboardView.completion_percent.
  fold (PercentFacts.percent (completedTasks stats) (totalTasks stats)).
  destruct (Z.ltb_spec 0 (totalTasks stats)) as [Ht|Ht]; repeat split; try lia.
  - now apply PercentFacts.percent_bounds.
  - now apply PercentFacts.percent_bounds.
  - intros ->. now apply PercentFacts.percent_none.
  - intros _ ->. now apply PercentFacts.percent_all.
Qed.

End DashboardMore.

(** ** The timer session *)

Module TimerMore.
Import Timer TimerView TimerFacts.

Section Runs.

Context `{JSDate}.
Variable repo : Repository.
Variable user : option string.

Lemma run_startTimer_inserted now s entry :
  JS.truthy (selectedTaskId s) = true ->
  insert_reply repo (selectedTaskId s) (toISOString now) = Some entry ->
  run (startTimer repo user now) s
  = ({| selectedTaskId := selectedTaskId s; isRunning := true; currentTime := 0;
        activeEntryId := Some entry |},
     [insert_time_entry user (selectedTaskId s) (toISOString now);
      toast "Timer started" "Time tracking has begun for the selected task."
        default_variant]).
Proof.
  intros Hsel Hreply. unfold run, startTimer, try_catch, bind, call.
  rewrite Hsel. cbn. rewrite Hreply. reflexivity.
Qed.

Lemma run_startTimer_refused now s :
  JS.truthy (selectedTaskId s) = true ->
  insert_reply repo (selectedTaskId s) (toISOString now) = None ->
  run (startTimer repo user now) s
  = (s, [insert_time_entry user (selectedTaskId s) (toISOString now);
         toast "Error" "Failed to start timer." destructive]).
Proof.
  intros Hsel Hreply. unfold run, startTimer, try_catch, bind, call.
  rewrite Hsel. cbn. rewrite Hreply. reflexivity.
Qed.

Lemma run_startTimer_no_task now s :
  JS.truthy (selectedTaskId s) = false ->
  run (startTimer repo user now) s
  = (s, [toast "Select a task" "Please select a task to track time for." destructive]).
Proof. intros Hsel. unfold run, startTimer, call. now rewrite Hsel. Qed.

Lemma run_stopTimer_updated now s entry :
  activeEntryId s = Some entry -> JS.truthy entry = true ->
  update_reply repo entry (toISOString now) (currentTime s) = true ->
  run (stopTimer repo now) s
  = ({| selectedTaskId := selectedTaskId s; isRunning := false; currentTime := 0;
        activeEntryId := None |},
     [update_time_entry entry (toISOString now) (currentTime s);
      fetchTimeEntries;
      toast "Timer stopped" ("Time logged: " ++ formatTime (currentTime s))%string
        default_variant]).
Proof.
  intros Hentry Htruthy Hreply. unfold run, stopTimer, try_catch, bind, call.
  rewrite Hentry, Htruthy. cbn. rewrite Hreply. reflexivity.
Qed.

Lemma run_stopTimer_refused now s entry :
  activeEntryId s = Some entry -> JS.truthy entry = true ->
  update_reply repo entry (toISOString now) (currentTime s) = false ->
  run (stopTimer repo now) s
  = (s, [update_time_entry entry (toISOString now) (currentTime s);
         toast "Error" "Failed to stop timer." destructive]).
Proof.
  intros Hentry Htruthy Hreply. unfold run, stopTimer, try_catch, bind, call.
  rewrite Hentry, Htruthy. cbn. rewrite Hreply. reflexivity.
Qed.

Lemma run_stopTimer_idle now s :
  JS.truthy_opt (activeEntryId s) = false -> run (stopTimer repo now) s = (s, []).
Proof.
  intros Hno. unfold run, stopTimer, ret.
  destruct (activeEntryId s) as [entry|]; [|reflexivity].
  simpl in Hno. now rewrite Hno.
Qed.

(** The interval counts while the timer runs. *)
Lemma ticks_running n s :
  isRunning s = true ->
  Nat.iter n tick s
  = {| selectedTaskId := selectedTaskId s; isRunning := true;
       currentTime := currentTime s + Z.of_nat n; activeEntryId := activeEntryId s |}.
Proof.
  intros Hrun. induction n as [|n IH].
  - simpl. rewrite Z.add_0_r, <- Hrun. symmetry. apply state_eta.
  - rewrite Nat2Z.inj_succ, Nat.iter_succ, IH. unfold tick. cbn.
    f_equal. lia.
Qed.

Lemma ticks_paused n s : isRunning s = false -> Nat.iter n tick s = s.
Proof.
  intros Hrun. induction n as [|n IH]; [reflexivity|].
  rewrite Nat.iter_succ, IH. unfold tick. now rewrite Hrun.
Qed.

(** X8. The duration that is stored is the count of the interval: after
    a start, [n] ticks and a stop, the entry is updated with a duration of
    [n] seconds, the toast shows that time, and the session is idle again
    with its counter at 0. *)
Theorem stop_stores_tick_count (now0 now1 : Z) (s : State) (n : nat) (entry : string) :
  JS.truthy (selectedTaskId s) = true ->
  insert_reply repo (selectedTaskId s) (toISOString now0) = Some entry ->
  JS.truthy entry = true ->
  update_reply repo entry (toISOString now1) (Z.of_nat n) = true ->
  run (stopTimer repo now1) (Nat.iter n tick (fst (run (startTimer repo user now0) s)))
  = ({| selectedTaskId := selectedTaskId s; isRunning := false; currentTime := 0;
        activeEntryId := None |},
     [update_time_entry entry (toISOString now1) (Z.of_nat n);
      fetchTimeEntries;
      toast "Timer stopped" ("Time logged: " ++ formatTime (Z.of_nat n))%string
        default_variant]).
Proof.
  intros Hsel Hins Hentry Hupd.
  rewrite (run_startTimer_inserted now0 s entry Hsel Hins). cbn [fst].
  rewrite ticks_running by reflexivity. cbn [selectedTaskId currentTime activeEntryId].
  rewrite (run_stopTimer_updated now1 _ entry); cbn; try reflexivity; assumption.
Qed.

(** X9. A pause freezes the counter and calls nothing: after a start,
    [n] ticks and a pause, the entry is still the active one, further ticks
    change nothing, and a stop stores [n] seconds however long the pause. *)
Theorem pause_freezes_counter (now0 now1 : Z) (s : State) (n m : nat) (entry : string) :
  JS.truthy (selectedTaskId s) = true ->
  insert_reply repo (selectedTaskId s) (toISOString now0) = Some entry ->
  JS.truthy entry = true ->
  update_reply repo entry (toISOString now1) (Z.of_nat n) = true ->
  let running := Nat.iter n tick (fst (run (startTimer repo user now0) s)) in
  let paused := fst (run pauseTimer running) in
  snd (run pauseTimer running) = []
  /\ paused = {| selectedTaskId := selectedTaskId s; isRunning := false;
                 currentTime := Z.of_nat n; activeEntryId := Some entry |}
  /\ Nat.iter m tick paused = paused
  /\ snd (run (stopTimer repo now1) (Nat.iter m tick paused))
     = [update_time_entry entry (toISOString now1) (Z.of_nat n);
        fetchTimeEntries;
        toast "Timer stopped" ("Time logged: " ++ formatTime (Z.of_nat n))%string
          default_variant].
Proof.
  intros Hsel Hins Hentry Hupd running paused.
  assert (Epaused : paused = {| selectedTaskId := selectedTaskId s; isRunning := false;
                                currentTime := Z.of_nat n; activeEntryId := Some entry |}).
  { unfold paused, running.
    rewrite (run_startTimer_inserted now0 s entry Hsel Hins). cbn [fst].
    rewrite ticks_running by reflexivity. reflexivity. }
  repeat split.
  - exact Epaused.
  - apply ticks_paused. now rewrite Epaused.
  - rewrite ticks_paused by now rewrite Epaused.
    rewrite Epaused.
    rewrite (run_stopTimer_updated now1 _ entry); cbn; try reflexivity; assumption.
Qed.

(** X10. A start that the repository refuses changes nothing: one insert
    was tried, the failure is reported, and the session is as it was (not
    running, no active entry recorded). *)
Theorem refused_start_changes_nothing (now : Z) (s : State) :
  JS.truthy (selectedTaskId s) = true ->
  insert_reply repo (selectedTaskId s) (toISOString now) = None ->
  fst (run (startTimer repo user now) s) = s
  /\ filter is_repository_call (snd (run (startTimer repo user now) s))
     = [insert_time_entry user (selectedTaskId s) (toISOString now)]
  /\ failures (snd (run (startTimer repo user now) s)) = [RepositoryError].
Proof.
  intros Hsel Hreply. rewrite (run_startTimer_refused now s Hsel Hreply).
  repeat split.
Qed.

(** X11. A stop that the repository refuses changes nothing either: the
    session keeps running with its counter and its active entry, so the
    stop can be tried again; no list is fetched again, and the failure is
    reported. *)
Theorem refused_stop_changes_nothing (now : Z) (s : State) (entry : string) :
  activeEntryId s = Some entry ->
  JS.truthy entry = true ->
  update_reply repo entry (toISOString now) (currentTime s) = false ->
  fst (run (stopTimer repo now) s) = s
  /\ filter is_repository_call (snd (run (stopTimer repo now) s))
     = [update_time_entry entry (toISOString now) (currentTime s)]
  /\ failures (snd (run (stopTimer repo now) s)) = [RepositoryError].
Proof.
  intros Hentry Htruthy Hreply.
  rewrite (run_stopTimer_refused now s entry Hentry Htruthy Hreply).
  repeat split.
Qed.

End Runs.

(** A session on task t1 at noon of 2024-03-31, stopped 25 minutes later. *)
Definition ready : State :=
  {| selectedTaskId := "t1"; isRunning := false; currentTime := 0; activeEntryId := None |}.

Definition noon : Z := 1711886400000.
Definition later : Z := noon + 1500000.

Lemma stop_stores_tick_count_witness :
  run (stopTimer (H := UTC.dates) repository_ok later)
    (Nat.iter 1500 tick
       (fst (run (startTimer (H := UTC.dates) repository_ok (Some "u1"%string) noon) ready)))
  = ({| selectedTaskId := selectedTaskId ready; isRunning := false; currentTime := 0;
        activeEntryId := None |},
     [update_time_entry "e1" (toISOString (JSDate := UTC.dates) later) (Z.of_nat 1500);
      fetchTimeEntries;
      toast "Timer stopped" ("Time logged: " ++ formatTime (Z.of_nat 1500))%string
        default_variant]).
Proof.
  apply (stop_stores_tick_count (H := UTC.dates) repository_ok (Some "u1"%string)
           noon later ready 1500 "e1"); reflexivity.
Defined.

Lemma pause_freezes_counter_witness :
  let running :=
    Nat.iter 90 tick
      (fst (run (startTimer (H := UTC.dates) repository_ok (Some "u1"%string) noon) ready)) in
  let paused := fst (run pauseTimer running) in
  snd (run pauseTimer running) = []
  /\ paused = {| selectedTaskId := selectedTaskId ready; isRunning := false;
                 currentTime := Z.of_nat 90; activeEntryId := Some "e1"%string |}
  /\ Nat.iter 600 tick paused = paused
  /\ snd (run (stopTimer (H := UTC.dates) repository_ok later) (Nat.iter 600 tick paused))
     = [update_time_entry "e1" (toISOString (JSDate := UTC.dates) later) (Z.of_nat 90);
        fetchTimeEntries;
        toast "Timer stopped" ("Time logged: " ++ formatTime (Z.of_nat 90))%string
          default_variant].
Proof.
  apply (pause_freezes_counter (H := UTC.dates) repository_ok (Some "u1"%string)
           noon later ready 90 600 "e1"); reflexivity.
Defined.

Lemma refused_start_changes_nothing_witness :
  fst (run (startTimer (H := UTC.dates) no_repository (Some "u1"%string) noon) ready) = ready
  /\ filter is_repository_call
       (snd (run (startTimer (H := UTC.dates) no_repository (Some "u1"%string) noon) ready))
     = [insert_time_entry (Some "u1"%string) (selectedTaskId ready)
          (toISOString (JSDate := UTC.dates) noon)]
  /\ failures
       (snd (run (startTimer (H := UTC.dates) no_repository (Some "u1"%string) noon) ready))
     = [RepositoryError].
Proof.
  apply (refused_start_changes_nothing (H := UTC.dates) no_repository (Some "u1"%string)
           noon ready); reflexivity.
Defined.

Definition tracking : State :=
  {| selectedTaskId := "t1"; isRunning := true; currentTime := 1500;
     activeEntryId := Some "e1"%string |}.

Lemma refused_stop_changes_nothing_witness :
  fst (run (stopTimer (H := UTC.dates) no_repository later) tracking) = tracking
  /\ filter is_repository_call
       (snd (run (stopTimer (H := UTC.dates) no_repository later) tracking))
     = [update_time_entry "e1" (toISOString (JSDate := UTC.dates) later)
          (currentTime tracking)]
  /\ failures (snd (run (stopTimer (H := UTC.dates) no_repository later) tracking))
     = [RepositoryError].
Proof.
  apply (refused_stop_changes_nothing (H := UTC.dates) no_repository later tracking "e1");
    reflexivity.
Defined.

(** *** The clock *)

Lemma two_characters (v : Z) :
  0 <= v < 100 -> String.length (padStart2 (toString v)) = 2%nat.
Proof.
  intros Hv.
  assert (Hall : forallb (fun k => Nat.eqb (String.length
                                              (padStart2 (toString (Z.of_nat k)))) 2)
                   (seq 0 100) = true) by (vm_compute; reflexivity).
  rewrite forallb_forall in Hall.
  specialize (Hall (Z.to_nat v)). rewrite Z2Nat.id in Hall by lia.
  apply Nat.eqb_eq, Hall, in_seq. lia.
Qed.

(** X13. The clock splits a whole number of seconds between 0 and 2^53,
    the range in which the divisions of the number format give the exact
    quotients, into hours, minutes below 60 and seconds below 60 that add
    up to it; it prints the hours only when there is one at least, and
    always prints the seconds (and, after hours, the minutes) on two
    characters. *)
Theorem clock_fields (seconds : Z) :
  0 <= seconds <= 2 ^ 53 ->
  let '(hours, minutes, secs) := time_fields seconds in
  seconds = 3600 * hours + 60 * minutes + secs
  /\ 0 <= hours /\ 0 <= minutes < 60 /\ 0 <= secs < 60
  /\ formatTime seconds
     = (if (seconds <? 3600)%Z
        then toString minutes ++ ":" ++ padStart2 (toString secs)
        else toString hours ++ ":" ++ padStart2 (toString minutes)
             ++ ":" ++ padStart2 (toString secs))%string
  /\ String.length (padStart2 (toString minutes)) = 2%nat
  /\ String.length (padStart2 (toString secs)) = 2%nat.
Proof.
  intros [Hs _]. unfold time_fields, formatTime.
  rewrite !Z.rem_mod_nonneg by lia.
  pose proof (Z.div_mod seconds 3600 ltac:(lia)) as E1.
  pose proof (Z.mod_pos_bound seconds 3600 ltac:(lia)) as B1.
  pose proof (Z.div_mod (seconds mod 3600) 60 ltac:(lia)) as E2.
  pose proof (Z.mod_pos_bound (seconds mod 3600) 60 ltac:(lia)) as B2.
  pose proof (Z.mod_pos_bound seconds 60 ltac:(lia)) as B3.
  assert (Hh : 0 <= seconds / 3600) by (apply Z.div_pos; lia).
  assert (Hm : 0 <= seconds mod 3600 / 60 < 60)
    by (split; [apply Z.div_pos; lia | apply Z.div_lt_upper_bound; lia]).
  assert (E3 : seconds mod 60 = (seconds mod 3600) mod 60).
  { replace 3600 with (60 * 60) by reflexivity.
    rewrite Z.rem_mul_r by lia. rewrite Z.mul_comm, Z.mod_add by lia.
    now rewrite Z.mod_mod by lia. }
  repeat split; try lia.
  - destruct (Z.ltb_spec seconds 3600) as [Hlt|Hge].
    + rewrite Z.div_small by lia. reflexivity.
    + assert (0 < seconds / 3600) by (apply Z.div_str_pos; lia).
      destruct (Z.ltb_spec 0 (seconds / 3600)); [reflexivity | lia].
  - apply two_characters. lia.
  - apply two_characters. lia.
Qed.

Lemma clock_fields_witness :
  let '(hours, minutes, secs) := time_fields 3725 in
  3725 = 3600 * hours + 60 * minutes + secs
  /\ 0 <= hours /\ 0 <= minutes < 60 /\ 0 <= secs < 60
  /\ formatTime 3725
     = (if (3725 <? 3600)%Z
        then toString minutes ++ ":" ++ padStart2 (toString secs)
        else toString hours ++ ":" ++ padStart2 (toString minutes)
             ++ ":" ++ padStart2 (toString secs))%string
  /\ String.length (padStart2 (toString minutes)) = 2%nat
  /\ String.length (padStart2 (toString secs)) = 2%nat.
Proof.
  apply (clock_fields 3725). split; [lia | discriminate].
Defined.

End TimerMore.

(** ** The analytics snapshot *)

Module AnalyticsMore.
Import Analytics AnalyticsFacts.

(** *** The daily buckets *)

Section Daily.

Context `{JSDate}.

(** The tasks created on the day [k], and the bucket they make. *)
Definition created_on (k : string) (tasks : list Task) : list Task :=
  filter (fun task => String.eqb (date_part (created_at task)) k) tasks.

Definition counted (k : string) (tasks : list Task) : Day.t :=
  {| Day.date := k;
     Day.completed := Z.of_nat (length (filter Rows.completed (created_on k tasks)));
     Day.total := Z.of_nat (length (created_on k tasks)) |}.

Definition in_window (startDate endDate : Z) (k : string) : bool :=
  existsb (fun d => String.eqb (day_key d) k) (window_days startDate endDate).

Lemma counted_snoc k tasks task :
  counted k (tasks ++ [task])
  = if String.eqb (date_part (created_at task)) k
    then {| Day.date := k;
            Day.completed := if Rows.completed task
                             then Day.completed (counted k tasks) + 1
                             else Day.completed (counted k tasks);
            Day.total := Day.total (counted k tasks) + 1 |}
    else counted k tasks.
Proof.
  unfold counted, created_on. rewrite filter_app. cbn [filter].
  destruct (String.eqb (date_part (created_at task)) k).
  - rewrite filter_app, !length_app. cbn [filter Day.completed Day.total].
    destruct (Rows.completed task); cbn [length]; f_equal; lia.
  - now rewrite app_nil_r.
Qed.

Lemma count_task_step startDate endDate m tasks task :
  (forall k, JSMap.get k m
             = if in_window startDate endDate k then Some (counted k tasks) else None) ->
  JSMap.keys (count_task m task) = JSMap.keys m
  /\ forall k, JSMap.get k (count_task m task)
               = if in_window startDate endDate k
                 then Some (counted k (tasks ++ [task])) else None.
Proof.
  intros Hm. unfold count_task.
  set (k' := date_part (created_at task)).
  pose proof (Hm k') as Hk'.
  destruct (JSMap.get k' m) as [day|] eqn:Eg.
  - split.
    + rewrite JSMapFacts.keys_set. unfold JSMap.has. now rewrite Eg.
    + intros k. rewrite counted_snoc. fold k'.
      destruct (String.eqb_spec k' k) as [<-|Hne].
      * rewrite JSMapFacts.get_set_same.
        destruct (in_window startDate endDate k'); [|discriminate].
        injection Hk' as ->. reflexivity.
      * rewrite JSMapFacts.get_set_other by assumption. apply Hm.
  - split; [reflexivity|].
    intros k. rewrite counted_snoc. fold k'.
    destruct (String.eqb_spec k' k) as [<-|Hne]; [|apply Hm].
    rewrite Eg. destruct (in_window startDate endDate k'); [discriminate | reflexivity].
Qed.

Lemma count_tasks startDate endDate tasks :
  forall m done,
    (forall k, JSMap.get k m
               = if in_window startDate endDate k then Some (counted k done) else None) ->
    JSMap.keys (fold_left count_task tasks m) = JSMap.keys m
    /\ forall k, JSMap.get k (fold_left count_task tasks m)
                 = if in_window startDate endDate k
                   then Some (counted k (done ++ tasks)) else None.
Proof.
  induction tasks as [|task tasks IH]; intros m done Hm; cbn [fold_left].
  - rewrite app_nil_r. split; [reflexivity | exact Hm].
  - destruct (count_task_step startDate endDate m done task Hm) as [Hkeys Hget].
    destruct (IH _ _ Hget) as [Hkeys' Hget'].
    split; [now rewrite Hkeys'|].
    intros k. rewrite Hget'. now rewrite <- app_assoc.
Qed.

Lemma NoDup_keys_empty_days startDate endDate :
  NoDup (JSMap.keys (empty_days startDate endDate)).
Proof.
  rewrite empty_days_fold.
  assert (Hgen : forall ds m, NoDup (JSMap.keys m) ->
                              NoDup (JSMap.keys (fold_left set_day ds m))).
  { induction ds as [|d ds IH]; intros m Hm; cbn [fold_left]; [assumption|].
    apply IH. now apply JSMapFacts.NoDup_keys_set. }
  apply Hgen. constructor.
Qed.

Lemma dailyData_counted (tasks : list Task) (startDate endDate : Z) :
  JSMap.keys (dailyData_of (Some tasks) startDate endDate)
  = JSMap.keys (empty_days startDate endDate)
  /\ forall k, JSMap.get k (dailyData_of (Some tasks) startDate endDate)
               = if in_window startDate endDate k then Some (counted k tasks) else None.
Proof.
  apply (count_tasks startDate endDate tasks (empty_days startDate endDate) []).
  intros k. rewrite empty_days_fold, get_set_days. unfold in_window.
  destruct (existsb _ _); reflexivity.
Qed.

(** X14. Counting the tasks adds no bucket and removes none: the bucket
    of each day of the window holds the number of fetched tasks created on
    that day and the number of those that are completed, a task created on
    a day outside the window is ignored, and so in every bucket, and in the
    seven at most that are displayed, 0 <= completed <= total. *)
Theorem daily_buckets_count (tasks : list Task) (startDate endDate : Z) :
  let dailyData := dailyData_of (Some tasks) startDate endDate in
  JSMap.keys dailyData = JSMap.keys (empty_days startDate endDate)
  /\ (forall k, JSMap.get k dailyData
                = if in_window startDate endDate k then Some (counted k tasks) else None)
  /\ Forall (fun day => 0 <= Day.completed day <= Day.total day) (JSMap.values dailyData)
  /\ Forall (fun day => 0 <= Day.completed day <= Day.total day)
       (map relabel_day (JS.slice_last 7 (JSMap.values dailyData)))
  /\ (length (map relabel_day (JS.slice_last 7 (JSMap.values dailyData))) <= 7)%nat.
Proof.
  intros dailyData.
  destruct (dailyData_counted tasks startDate endDate) as [Hkeys Hget].
  fold dailyData in Hkeys, Hget.
  assert (Hall : Forall (fun day => 0 <= Day.completed day <= Day.total day)
                   (JSMap.values dailyData)).
  { apply Forall_forall. intros day Hin. unfold JSMap.values in Hin.
    apply in_map_iff in Hin. destruct Hin as [[k v] [Ev Hin]]. cbn in Ev. subst v.
    apply JSMapFacts.In_get in Hin.
    - rewrite Hget in Hin. destruct (in_window startDate endDate k); [|discriminate].
      injection Hin as <-. cbn [counted Day.completed Day.total].
      pose proof (filter_length_le Rows.completed (created_on k tasks)). lia.
    - rewrite Hkeys. apply NoDup_keys_empty_days. }
  repeat split; try assumption.
  - apply Forall_map. apply slice_last_Forall.
    revert Hall. apply Forall_impl. intros day Hday. exact Hday.
  - rewrite length_map, slice_last_length. lia.
Qed.

End Daily.

(** *** The time series and the histogram *)

Section Series.

Context `{JSDate} `{JSNumber}.

(** X15. The time series has one point for each date on which a fetched
    entry started, in the order in which the dates first occur among the
    entries; the minutes of a point are the sum of the rounded minutes of
    the entries of its date; the display keeps the last seven points. *)
Theorem time_series_points (tasks : option (list Task)) (entries : list TimeEntry)
  (startDate endDate weekStart : Z) :
  let points := timeData_of (Some entries) in
  let series := timeSpent (aggregate tasks (Some entries) startDate endDate weekStart) in
  series = map label_point (JS.slice_last 7 points)
  /\ (length series <= 7)%nat
  /\ map fst points = JSMapFacts.first_occurrences entry_key entries
  /\ (forall date minutes,
        In (date, minutes) points
        <-> entries_on date entries <> []
            /\ minutes = total_minutes (entries_on date entries)).
Proof.
  intros points series.
  assert (Hnd : NoDup (JSMap.keys points)).
  { unfold points. rewrite timeData_of_upsert. apply JSMapFacts.NoDup_keys_fold_upsert. }
  split; [reflexivity|]. split; [|split].
  - unfold series, aggregate. cbn [timeSpent].
    rewrite length_map, slice_last_length. lia.
  - apply time_series_order.
  - intros date minutes. split.
    + intros Hin. apply JSMapFacts.In_get in Hin; [|assumption].
      unfold points in Hin. rewrite time_series_accumulates in Hin.
      destruct (entries_on date entries); [discriminate|].
      split; [discriminate | now injection Hin].
    + intros [Hne ->]. apply JSMapFacts.get_In.
      unfold points. rewrite time_series_accumulates.
      destruct (entries_on date entries); [contradiction | reflexivity].
Qed.

Definition sum_values (slices : list Slice.t) : Z :=
  fold_right (fun slice acc => Slice.value slice + acc) 0 slices.

Lemma sum_values_set k slice (m : JSMap.t Slice.t) :
  sum_values (JSMap.values (JSMap.set k slice m))
  = sum_values (JSMap.values m) + Slice.value slice
    - match JSMap.get k m with Some old => Slice.value old | None => 0 end.
Proof.
  induction m as [|[k' v'] m IH]; cbn [JSMap.set JSMap.get JSMap.values map sum_values
                                        fold_right snd].
  - lia.
  - destruct (String.eqb k' k); cbn [JSMap.values map sum_values fold_right snd].
    + lia.
    + unfold JSMap.values, sum_values in IH. rewrite IH. lia.
Qed.

Definition has_category (task : Task) : bool :=
  match category task with Some _ => true | None => false end.

Lemma sum_values_count_category m task :
  sum_values (JSMap.values (count_category m task))
  = sum_values (JSMap.values m) + (if has_category task then 1 else 0).
Proof.
  unfold count_category, has_category.
  destruct (category task) as [c|]; [|lia].
  destruct (JSMap.get (Rows.name c) m) as [slice|] eqn:Eg;
    rewrite sum_values_set, Eg; cbn [Slice.value]; lia.
Qed.

Lemma sum_values_fold tasks :
  forall m,
    sum_values (JSMap.values (fold_left count_category tasks m))
    = sum_values (JSMap.values m) + Z.of_nat (length (filter has_category tasks)).
Proof.
  induction tasks as [|task tasks IH]; intros m; cbn [fold_left filter].
  - cbn. lia.
  - rewrite IH, sum_values_count_category.
    destruct (has_category task); cbn [length]; lia.
Qed.

(** X16. The histogram lists the category names in the order in which
    they first occur among the fetched tasks, and its values add up to the
    number of fetched tasks that have a category: a task without one is in
    no entry, a task with one is counted once. *)
Theorem histogram_order_and_sum (tasks : list Task) (timeEntries : option (list TimeEntry))
  (startDate endDate weekStart : Z) :
  let histogram :=
    categoryBreakdown (aggregate (Some tasks) timeEntries startDate endDate weekStart) in
  map Slice.name histogram = JSMapFacts.first_occurrences category_key tasks
  /\ sum_values histogram = Z.of_nat (length (filter has_category tasks)).
Proof.
  intros histogram. unfold histogram, aggregate. cbn [categoryBreakdown]. split.
  - rewrite names_are_keys, categoryData_of_upsert.
    apply JSMapFacts.keys_fold_upsert.
  - unfold categoryData_of. cbn [or_empty]. rewrite sum_values_fold. reflexivity.
Qed.

(** *** The weekly stats and the fetch *)

Lemma filter_all_true {A : Type} (p : A -> bool) (l : list A) :
  Forall (fun x => p x = true) l -> filter p l = l.
Proof.
  induction 1 as [|x l Hx _ IH]; cbn [filter]; [reflexivity|]. now rewrite Hx, IH.
Qed.

Lemma filter_all_false {A : Type} (p : A -> bool) (l : list A) :
  Forall (fun x => p x = false) l -> filter p l = [].
Proof.
  induction 1 as [|x l Hx _ IH]; cbn [filter]; [reflexivity|]. now rewrite Hx.
Qed.

(** X17. When the last seven days have a task: the completion rate is
    100 if all their tasks are completed, and it is 0, like the average
    time per task, if none is. *)
Theorem weekly_rate_extremes (tasks : option (list Task))
  (timeEntries : option (list TimeEntry)) (weekStart : Z) :
  weekTasks_of tasks weekStart <> [] ->
  (Forall (fun task => Rows.completed task = true) (weekTasks_of tasks weekStart) ->
   completionRate (weeklyStats_of tasks timeEntries weekStart) = 100)
  /\ (Forall (fun task => Rows.completed task = false) (weekTasks_of tasks weekStart) ->
      completionRate (weeklyStats_of tasks timeEntries weekStart) = 0
      /\ averageTimePerTask (weeklyStats_of tasks timeEntries weekStart) = 0).
Proof.
  intros Hne.
  assert (Hlen : (0 < length (weekTasks_of tasks weekStart))%nat)
    by (destruct (weekTasks_of tasks weekStart); [contradiction | simpl; lia]).
  unfold weeklyStats_of. cbn [completionRate averageTimePerTask].
  apply Nat.ltb_lt in Hlen. rewrite Hlen. apply Nat.ltb_lt in Hlen.
  split.
  - intros Hall. rewrite (filter_all_true _ _ Hall).
    apply PercentFacts.percent_all. lia.
  - intros Hnone. rewrite (filter_all_false _ _ Hnone). cbn [length Z.of_nat].
    split; [apply PercentFacts.percent_none; lia | reflexivity].
Qed.

Lemma filter_implied {A : Type} (p q : A -> bool) (l : list A) :
  (forall x, p x = true -> q x = true) -> filter p (filter q l) = filter p l.
Proof.
  intros Hpq. rewrite TasksFacts.filter_filter. apply filter_ext. intros x.
  destruct (p x) eqn:Ep; [now rewrite (Hpq x Ep) | apply andb_false_r].
Qed.

Definition closed_entry_of (user : string) (entry : TimeEntry) : bool :=
  String.eqb (entry_user_id entry) user
  && match duration entry with Some _ => true | None => false end.

(** X18. Only the user's own tasks and closed entries reach the
    snapshot: [fetchAnalytics] gives the same result when the tasks of the
    other users and the entries that are open or belong to other users are
    taken out of the tables. *)
Theorem fetchAnalytics_ignores_other_rows (db : Database) (user : string)
  (now1 now2 now3 : Z) (s : State) :
  fetchAnalytics db user now1 now2 now3 s
  = fetchAnalytics
      {| tasks_table := filter (fun task => String.eqb (user_id task) user) (tasks_table db);
         time_entries_table := filter (closed_entry_of user) (time_entries_table db);
         tasksError := tasksError db;
         timeError := timeError db |}
      user now1 now2 now3 s.
Proof.
  unfold fetchAnalytics, select_tasks, select_time_entries.
  cbn [tasks_table time_entries_table tasksError timeError].
  rewrite !filter_implied; [reflexivity | |].
  - intros entry. unfold closed_entry_of. rewrite !andb_true_iff. tauto.
  - intros task. rewrite andb_true_iff. tauto.
Qed.

(** X19. When one of the two selects fails, [fetchAnalytics] shows the
    error toast, keeps the snapshot it had and clears [loading]. *)
Theorem fetchAnalytics_on_error (db : Database) (user : string)
  (now1 now2 now3 : Z) (s : State) :
  tasksError db = true \/ timeError db = true ->
  fetchAnalytics db user now1 now2 now3 s
  = ({| analytics := analytics s; loading := false |}, true).
Proof.
  intros Herr. unfold fetchAnalytics, select_tasks, select_time_entries.
  destruct (tasksError db); [reflexivity|].
  destruct Herr as [Herr | Herr]; [discriminate|]. now rewrite Herr.
Qed.

End Series.

#[local] Existing Instance UTC.dates.
#[local] Existing Instance Binary64Facts.numbers.

Lemma weekly_rate_extremes_witness :
  (Forall (fun task => Rows.completed task = true)
     (weekTasks_of (Some (repeat (week_task true) 3)) march_24) ->
   completionRate (weeklyStats_of (Some (repeat (week_task true) 3))
                     (Some march_entries) march_24) = 100)
  /\ (Forall (fun task => Rows.completed task = false)
        (weekTasks_of (Some (repeat (week_task true) 3)) march_24) ->
      completionRate (weeklyStats_of (Some (repeat (week_task true) 3))
                        (Some march_entries) march_24) = 0
      /\ averageTimePerTask (weeklyStats_of (Some (repeat (week_task true) 3))
                               (Some march_entries) march_24) = 0).
Proof.
  apply (weekly_rate_extremes (Some (repeat (week_task true) 3)) (Some march_entries)
           march_24).
  vm_compute. discriminate.
Defined.

Lemma fetchAnalytics_on_error_witness :
  fetchAnalytics
    {| tasks_table := []; time_entries_table := march_entries;
       tasksError := false; timeError := true |}
    "u1" march_31 march_31 march_31 initial
  = ({| analytics := analytics initial; loading := false |}, true).
Proof.
  apply (fetchAnalytics_on_error
           {| tasks_table := []; time_entries_table := march_entries;
              tasksError := false; timeError := true |}
           "u1" march_31 march_31 march_31 initial).
  right. reflexivity.
Defined.

End AnalyticsMore.

(** ** The daily series, day by day *)

Module DailySeries.
Import Analytics AnalyticsFacts AnalyticsMore.

Lemma map_determined {V : Type} (f : string -> V) (m : JSMap.t V) :
  NoDup (JSMap.keys m) ->
  (forall k, In k (JSMap.keys m) -> JSMap.get k m = Some (f k)) ->
  m = map (fun k => (k, f k)) (JSMap.keys m).
Proof.
  induction m as [|[k v] m IH]; intros Hnd Hget; [reflexivity|].
  cbn [JSMap.keys map fst] in *. inversion Hnd as [|? ? Hnot Hnd']; subst.
  pose proof (Hget k (or_introl eq_refl)) as Hk.
  cbn [JSMap.get] in Hk. rewrite String.eqb_refl in Hk. injection Hk as ->.
  f_equal. apply IH; [assumption|].
  intros k' Hin. specialize (Hget k' (or_intror Hin)). cbn [JSMap.get] in Hget.
  destruct (String.eqb_spec k k') as [->|]; [contradiction | assumption].
Qed.

(** X20. When the days of the window have different date strings, the
    daily-completion series shows the last seven days of the window in
    order (all of them when there are fewer), each under its weekday name
    with the number of fetched tasks created on that day and the number of
    those that are completed. *)
Theorem daily_series_last_seven_days `{JSDate} `{JSNumber}
  (tasks : list Task) (timeEntries : option (list TimeEntry))
  (startDate endDate weekStart : Z) :
  NoDup (map day_key (window_days startDate endDate)) ->
  dailyCompletion (aggregate (Some tasks) timeEntries startDate endDate weekStart)
  = map (fun d =>
           {| Day.date := toLocaleWeekday (day_key d);
              Day.completed :=
                Z.of_nat (length (filter Rows.completed (created_on (day_key d) tasks)));
              Day.total := Z.of_nat (length (created_on (day_key d) tasks)) |})
      (JS.slice_last 7 (window_days startDate endDate)).
Proof.
  intros Hnd.
  destruct (dailyData_counted tasks startDate endDate) as [Hkeys Hget].
  set (dailyData := dailyData_of (Some tasks) startDate endDate) in *.
  assert (Hempty : JSMap.keys (empty_days startDate endDate)
                   = map day_key (window_days startDate endDate)).
  { rewrite empty_days_fold, set_days_distinct by exact Hnd.
    unfold JSMap.keys. cbn [app]. now rewrite map_map. }
  assert (Hdata : dailyData
                  = map (fun k => (k, counted k tasks))
                      (map day_key (window_days startDate endDate))).
  { rewrite <- Hempty, <- Hkeys. apply map_determined.
    - rewrite Hkeys, Hempty. exact Hnd.
    - intros k Hin. rewrite Hget. rewrite Hkeys, Hempty in Hin.
      replace (in_window startDate endDate k) with true; [reflexivity|].
      symmetry. unfold in_window. apply existsb_exists.
      apply in_map_iff in Hin. destruct Hin as [d [<- Hd]].
      exists d. split; [assumption | apply String.eqb_refl]. }
  unfold aggregate. cbn [dailyCompletion]. fold dailyData. rewrite Hdata.
  unfold JSMap.values. rewrite !map_map. cbn [snd].
  rewrite slice_last_map, map_map. reflexivity.
Qed.

#[local] Existing Instance UTC.dates.
#[local] Existing Instance Binary64Facts.numbers.

Lemma daily_series_last_seven_days_witness :
  dailyCompletion (aggregate (Some forty_tasks) (Some march_entries) march_1 march_31 march_24)
  = map (fun d =>
           {| Day.date := toLocaleWeekday (day_key d);
              Day.completed :=
                Z.of_nat (length (filter Rows.completed
                                    (created_on (day_key d) forty_tasks)));
              Day.total := Z.of_nat (length (created_on (day_key d) forty_tasks)) |})
      (JS.slice_last 7 (window_days march_1 march_31)).
Proof.
  apply (daily_series_last_seven_days forty_tasks (Some march_entries)
           march_1 march_31 march_24).
  exact march_days_distinct.
Defined.

(** The forty tasks of March 30 show in the Saturday bucket. *)
Example daily_series_of_march :
  dailyCompletion (aggregate (Some forty_tasks) (Some march_entries) march_1 march_31 march_24)
  = [zero_day "Mon"; zero_day "Tue"; zero_day "Wed"; zero_day "Thu"; zero_day "Fri";
     {| Day.date := "Sat"; Day.completed := 23; Day.total := 40 |}; zero_day "Sun"].
Proof. vm_compute. reflexivity. Qed.

End DailySeries.

(** ** The share of the estimate *)

Module EstimateFacts.
Import Timer TimerView.

Section Estimate.

Context `{JSNumber}.

Lemma Q_div_le (x y c : Q) : (0 < c)%Q -> (x <= y)%Q -> (x / c <= y / c)%Q.
Proof.
  intros Hc Hxy. unfold Qdiv. apply Qmult_le_compat_r; [assumption|].
  apply Qlt_le_weak, Qinv_lt_0_compat, Hc.
Qed.

(** X21. For a task with a positive estimate, the share of the estimate
    drawn beside the clock never decreases as the counter grows, and it is
    100 when the counter reaches the estimate (60 seconds for each of its
    minutes). *)
Theorem estimate_percent_grows (estimate : Z) :
  0 < estimate ->
  60 * estimate <= 2 ^ 53 ->
  (forall t1 t2, t1 <= t2 -> estimate_percent t1 estimate <= estimate_percent t2 estimate)
  /\ estimate_percent (60 * estimate) estimate = 100.
Proof.
  intros Hpos Hsmall. split.
  - intros t1 t2 Ht. unfold estimate_percent.
    apply NumberFacts.Math_round_le, fl_monotone.
    apply Qmult_le_compat_r; [|discriminate].
    apply fl_monotone, Q_div_le; [unfold Qlt; simpl; lia|].
    apply fl_monotone, Q_div_le; [reflexivity|].
    rewrite <- Zle_Qle. exact Ht.
  - unfold estimate_percent.
    rewrite (NumberFacts.Math_round_proper _ (inject_Z 100)).
    + apply NumberFacts.Math_round_Z.
    + apply NumberFacts.fl_Z; [simpl; lia|].
      rewrite (NumberFacts.fl_Z _ 1); [reflexivity | simpl; lia |].
      rewrite (NumberFacts.fl_Z _ estimate); [| lia |].
      * field. intros E. apply (inject_Z_injective estimate 0) in E. lia.
      * rewrite inject_Z_mult. field.
Qed.

End Estimate.

Lemma estimate_percent_grows_witness :
  (forall t1 t2, t1 <= t2 ->
     estimate_percent (H := Binary64Facts.numbers) t1 25
     <= estimate_percent (H := Binary64Facts.numbers) t2 25)
  /\ estimate_percent (H := Binary64Facts.numbers) (60 * 25) 25 = 100.
Proof.
  apply (estimate_percent_grows (H := Binary64Facts.numbers) 25).
  - lia.
  - simpl. lia.
Defined.

End EstimateFacts.
